(** * Anuneko chat plugin: session store, stream decoder, reply aggregation

    A shallow embedding of [anuneko_chat/__init__.py].  The plugin keeps two
    process-wide dictionaries ([user_sessions], [user_models]), talks to the
    backend over HTTP, and folds a line-delimited event stream into a reply
    string.

    Modelling conventions.
    - A Python [str] is a [string] holding its UTF-8 encoding; concatenation,
      prefix and substring tests on valid UTF-8 coincide with the same
      operations on code points.
    - A value produced by [json.loads] is a [json] term; dictionaries are
      association lists in insertion order.
    - An exception is [None] in an [option]; a [try ... except Exception]
      block is a [match] on that option.
    - The two dictionaries are threaded explicitly as a [plugin_state],
      together with the list of HTTP requests put on the wire.
    - The backend is an input: every function takes the outcome of each HTTP
      exchange it may perform, in program order. *)

From Stdlib Require Import ZArith Ascii String List Bool Lia SpecFloat.
From stdpp Require Import base option strings gmap.

Local Open Scope string_scope.
Local Set Warnings "-register-all".

(** ** Python values and the built-ins the plugin applies to them *)

Module Py.

(** A Python [float] is an IEEE 754 binary64 value. *)
Definition prec : Z := 53.
Definition emax : Z := 1024.

Inductive json : Type :=
| JNull                                   (* None *)
| JBool (b : bool)
| JInt (z : Z)
| JFloat (f : spec_float)
| JString (s : string)
| JList (l : list json)
| JObject (kvs : list (string * json)).   (* dict, insertion order *)

Definition is_empty (s : string) : bool :=
  match s with EmptyString => true | String _ _ => false end.

(** [bool(x)] *)
Definition truthy (x : json) : bool :=
  match x with
  | JNull => false
  | JBool b => b
  | JInt z => negb (z =? 0)%Z
  | JFloat (S754_zero _) => false
  | JFloat _ => true
  | JString s => negb (is_empty s)
  | JList l => match l with [] => false | _ => true end
  | JObject kvs => match kvs with [] => false | _ => true end
  end.

(** [x == s] for a [str] literal [s] *)
Definition eq_str (x : json) (s : string) : bool :=
  match x with JString t => String.eqb t s | _ => false end.

(** [x == 0]: numbers compare by value, and [False == 0] holds *)
Definition eq_zero (x : json) : bool :=
  match x with
  | JInt z => (z =? 0)%Z
  | JBool b => negb b
  | JFloat (S754_zero _) => true
  | _ => false
  end.

Definition isinstance_list (x : json) : bool :=
  match x with JList _ => true | _ => false end.

Definition isinstance_str (x : json) : bool :=
  match x with JString _ => true | _ => false end.

(** *** dict operations on association lists *)

Fixpoint dict_lookup (k : string) (kvs : list (string * json)) : option json :=
  match kvs with
  | [] => None
  | (k', v) :: rest => if String.eqb k' k then Some v else dict_lookup k rest
  end.

Definition dict_has (k : string) (kvs : list (string * json)) : bool :=
  match dict_lookup k kvs with Some _ => true | None => false end.

(** [d[k] = v]: an existing key keeps its position *)
Fixpoint dict_set (k : string) (v : json) (kvs : list (string * json))
  : list (string * json) :=
  match kvs with
  | [] => [(k, v)]
  | (k', v') :: rest =>
      if String.eqb k' k then (k', v) :: rest else (k', v') :: dict_set k v rest
  end.

(** [del d[k]] *)
Fixpoint dict_remove (k : string) (kvs : list (string * json))
  : list (string * json) :=
  match kvs with
  | [] => []
  | (k', v') :: rest =>
      if String.eqb k' k then dict_remove k rest else (k', v') :: dict_remove k rest
  end.

(** [sub in s] on strings *)
Fixpoint contains (sub s : string) : bool :=
  String.prefix sub s ||
  match s with
  | EmptyString => false
  | String _ rest => contains sub rest
  end.

(** [k in x]; [None] is the [TypeError] raised for a non-container *)
Definition py_in (k : string) (x : json) : option bool :=
  match x with
  | JObject kvs => Some (dict_has k kvs)
  | JList l => Some (existsb (fun e => eq_str e k) l)
  | JString s => Some (contains k s)
  | _ => None
  end.

(** [x[k]] for a [str] key; [None] is [KeyError] on a dict without the key
    and [TypeError] on everything else *)
Definition getitem (x : json) (k : string) : option json :=
  match x with
  | JObject kvs => dict_lookup k kvs
  | _ => None
  end.

(** [x.get(k, d)]; [None] is the [AttributeError] raised unless [x] is a dict *)
Definition get (x : json) (k : string) (d : json) : option json :=
  match x with
  | JObject kvs => Some (default d (dict_lookup k kvs))
  | _ => None
  end.

(** [result += v] with [result : str]; [None] is [TypeError] *)
Definition iadd (result : string) (v : json) : option string :=
  match v with
  | JString s => Some (result ++ s)
  | _ => None
  end.

(** *** str methods *)

Definition startswith (s pre : string) : bool := String.prefix pre s.

(** [s[n:]] *)
Fixpoint slice_from (n : nat) (s : string) : string :=
  match n, s with
  | S n', String _ rest => slice_from n' rest
  | _, _ => s
  end.

Definition byte (a : ascii) : N := N_of_ascii a.

(** The code points for which [str.isspace] holds, by length of their
    UTF-8 encoding: U+0009..U+000D, U+001C..U+001F, U+0020; U+0085, U+00A0;
    U+1680, U+2000..U+200A, U+2028, U+2029, U+202F, U+205F, U+3000. *)
Definition space1 (a : ascii) : bool :=
  let n := byte a in
  ((9 <=? n) && (n <=? 13) || (28 <=? n) && (n <=? 32))%N.

Definition space2 (a b : ascii) : bool :=
  ((byte a =? 194) && ((byte b =? 133) || (byte b =? 160)))%N.

Definition space3 (a b c : ascii) : bool :=
  let '(x, y, z) := (byte a, byte b, byte c) in
  ((x =? 225) && (y =? 154) && (z =? 128)
   || (x =? 226) && (y =? 128)
      && ((128 <=? z) && (z <=? 138) || (z =? 168) || (z =? 169) || (z =? 175))
   || (x =? 226) && (y =? 129) && (z =? 159)
   || (x =? 227) && (y =? 128) && (z =? 128))%N.

Fixpoint lstrip (s : string) : string :=
  match s with
  | EmptyString => s
  | String a r1 =>
      if space1 a then lstrip r1 else
      match r1 with
      | EmptyString => s
      | String b r2 =>
          if space2 a b then lstrip r2 else
          match r2 with
          | EmptyString => s
          | String c r3 => if space3 a b c then lstrip r3 else s
          end
      end
  end.

Fixpoint rstrip (s : string) : string :=
  match s with
  | EmptyString => s
  | String a rest => if is_empty (lstrip s) then EmptyString else String a (rstrip rest)
  end.

Definition strip (s : string) : string := rstrip (lstrip s).

(** [s.lower()] as far as ASCII letters go.  The only other code points whose
    lower-case form contains an ASCII letter are U+0130 and U+212A (giving
    [i] followed by U+0307, and [k]); neither can complete an occurrence of
    the keywords this plugin searches for. *)
Definition lower_ascii (a : ascii) : ascii :=
  let n := byte a in
  if ((65 <=? n) && (n <=? 90))%N then ascii_of_N (n + 32) else a.

Fixpoint lower (s : string) : string :=
  match s with
  | EmptyString => EmptyString
  | String a rest => String (lower_ascii a) (lower rest)
  end.

End Py.

(** ** [json.loads]

    The decoder of the Python standard library, for a [str] argument: JSON
    texts per RFC 8259 plus the literals [NaN], [Infinity] and [-Infinity];
    strict strings (no raw control characters); a repeated object key keeps
    its first position and its last value; an integer literal has at most
    4300 digits ([int] refuses longer ones with [ValueError]); numbers with a
    fraction or an exponent become correctly rounded binary64 floats.
    [None] stands for the exception raised, [JSONDecodeError] or that
    [ValueError].  CPython also gives up, with [RecursionError], on nesting
    deeper than the recursion limit leaves room for; that bound depends on
    the call stack at the time and is not part of this model. *)

Module Json.
Import Py.

Definition quote : ascii := ascii_of_N 34.

Fixpoint skip_ws (s : string) : string :=
  match s with
  | String a rest =>
      let n := byte a in
      if ((n =? 32) || (n =? 9) || (n =? 10) || (n =? 13))%N then skip_ws rest else s
  | EmptyString => s
  end.

Fixpoint strip_prefix (pre s : string) : option string :=
  match pre, s with
  | EmptyString, _ => Some s
  | String a pre', String b s' => if Ascii.eqb a b then strip_prefix pre' s' else None
  | String _ _, EmptyString => None
  end.

(** *** Numbers *)

Definition is_digit (a : ascii) : bool := ((48 <=? byte a) && (byte a <=? 57))%N.

Fixpoint span_digits (s : string) : list Z * string :=
  match s with
  | String a rest =>
      if is_digit a
      then let '(ds, r) := span_digits rest in (Z.of_N (byte a - 48) :: ds, r)
      else ([], s)
  | EmptyString => ([], s)
  end.

Definition digits_value (ds : list Z) : Z :=
  fold_left (fun acc d => 10 * acc + d)%Z ds 0%Z.

(** The binary64 nearest to [m * 10^e] (ties to even), for [0 <= m].  For a
    negative exponent the quotient is taken with at least 66 significant bits
    and a sticky bit, which rounds as the exact value does. *)
Definition float_of_decimal (neg : bool) (m e : Z) : spec_float :=
  if (m <=? 0)%Z then S754_zero neg
  else if (0 <=? e)%Z then binary_round prec emax neg (Z.to_pos (m * 10 ^ e)) 0
  else
    let d := (10 ^ (- e))%Z in
    let k := Z.max 0 (Z.log2_up d - Z.log2 m + 66) in
    let n := (m * 2 ^ k)%Z in
    let sticky := if (n mod d =? 0)%Z then 0%Z else 1%Z in
    binary_round prec emax neg (Z.to_pos (2 * (n / d) + sticky)) (- (k + 1)).

(** An optional minus sign, then [0] or a digit string without leading zero;
    a fraction is taken only when a digit follows the dot, an exponent only
    when a digit follows the [e] and its optional sign. *)
Definition scan_number (s : string) : option (json * string) :=
  let '(neg, s0) := match s with String "-" r => (true, r) | _ => (false, s) end in
  '(ints, s1) ← match s0 with
                | String "0" r => Some ([0%Z], r)
                | _ => match span_digits s0 with
                       | ([], _) => None
                       | found => Some found
                       end
                end;
  let '(frac, s2) :=
    match s1 with
    | String "." r => match span_digits r with
                      | ([], _) => (None, s1)
                      | (ds, r') => (Some ds, r')
                      end
    | _ => (None, s1)
    end in
  let '(exp, s3) :=
    match s2 with
    | String c r =>
        if Ascii.eqb c "e" || Ascii.eqb c "E" then
          let '(eneg, r0) := match r with
                             | String "-" r' => (true, r')
                             | String "+" r' => (false, r')
                             | _ => (false, r)
                             end in
          match span_digits r0 with
          | ([], _) => (None, s2)
          | (ds, r') => (Some (if eneg then (- digits_value ds)%Z else digits_value ds), r')
          end
        else (None, s2)
    | EmptyString => (None, s2)
    end in
  match frac, exp with
  | None, None =>
      if (4300 <? length ints)%nat then None
      else Some (JInt (if neg then (- digits_value ints)%Z else digits_value ints), s3)
  | _, _ =>
      let fs := default [] frac in
      Some (JFloat (float_of_decimal neg (digits_value (ints ++ fs))
                                     (default 0%Z exp - Z.of_nat (length fs))), s3)
  end.

(** *** Strings *)

Inductive code_unit := Raw (a : ascii) | Escaped (n : N).

Definition hex_digit (a : ascii) : option N :=
  let n := byte a in
  if ((48 <=? n) && (n <=? 57))%N then Some (n - 48)%N
  else if ((65 <=? n) && (n <=? 70))%N then Some (n - 55)%N
  else if ((97 <=? n) && (n <=? 102))%N then Some (n - 87)%N
  else None.

Definition hex4 (a b c d : ascii) : option N :=
  x ← hex_digit a; y ← hex_digit b; z ← hex_digit c; w ← hex_digit d;
  Some (((x * 16 + y) * 16 + z) * 16 + w)%N.

Definition simple_escape (a : ascii) : option ascii :=
  if Ascii.eqb a quote then Some quote
  else match a with
       | "\" => Some "\"
       | "/" => Some "/"
       | "b" => Some (ascii_of_N 8)
       | "f" => Some (ascii_of_N 12)
       | "n" => Some (ascii_of_N 10)
       | "r" => Some (ascii_of_N 13)
       | "t" => Some (ascii_of_N 9)
       | _ => None
       end%char.

(** Reads up to the closing quote; the opening one is already consumed. *)
Fixpoint scan_units (s : string) : option (list code_unit * string) :=
  match s with
  | EmptyString => None
  | String a rest =>
      if Ascii.eqb a quote then Some ([], rest)
      else if Ascii.eqb a "\" then
        match rest with
        | String "u" (String h1 (String h2 (String h3 (String h4 rest')))) =>
            n ← hex4 h1 h2 h3 h4;
            '(us, r) ← scan_units rest';
            Some (Escaped n :: us, r)
        | String e rest' =>
            b ← simple_escape e;
            '(us, r) ← scan_units rest';
            Some (Raw b :: us, r)
        | EmptyString => None
        end
      else if (byte a <? 32)%N then None
      else '(us, r) ← scan_units rest; Some (Raw a :: us, r)
  end.

Definition utf8 (n : N) : string :=
  let b x := ascii_of_N x in
  (if n <? 128 then String (b n) EmptyString
   else if n <? 2048 then
     String (b (192 + n / 64)) (String (b (128 + n mod 64)) EmptyString)
   else if n <? 65536 then
     String (b (224 + n / 4096))
       (String (b (128 + (n / 64) mod 64)) (String (b (128 + n mod 64)) EmptyString))
   else
     String (b (240 + n / 262144))
       (String (b (128 + (n / 4096) mod 64))
          (String (b (128 + (n / 64) mod 64)) (String (b (128 + n mod 64)) EmptyString))))%N.

Definition high_surrogate (n : N) : bool := ((55296 <=? n) && (n <=? 56319))%N.
Definition low_surrogate (n : N) : bool := ((56320 <=? n) && (n <=? 57343))%N.

(** A high surrogate escape directly followed by a low one is one code point. *)
Fixpoint encode_units (us : list code_unit) : string :=
  match us with
  | [] => EmptyString
  | Raw a :: rest => String a (encode_units rest)
  | Escaped hi :: rest =>
      match rest with
      | Escaped lo :: rest' =>
          if high_surrogate hi && low_surrogate lo
          then utf8 (65536 + (hi - 55296) * 1024 + (lo - 56320)) ++ encode_units rest'
          else utf8 hi ++ encode_units rest
      | _ => utf8 hi ++ encode_units rest
      end
  end.

Definition scan_string (s : string) : option (string * string) :=
  '(us, r) ← scan_units s; Some (encode_units us, r).

(** *** Values *)

Fixpoint scan_once (fuel : nat) (s : string) : option (json * string) :=
  match fuel with
  | O => None
  | S fuel' =>
      match s with
      | String "{" r =>
          match skip_ws r with
          | String "}" r' => Some (JObject [], r')
          | r' => '(kvs, r'') ← parse_members fuel' r' []; Some (JObject kvs, r'')
          end
      | String "[" r =>
          match skip_ws r with
          | String "]" r' => Some (JList [], r')
          | r' => '(vs, r'') ← parse_elements fuel' r'; Some (JList vs, r'')
          end
      | String a r =>
          if Ascii.eqb a quote then '(t, r') ← scan_string r; Some (JString t, r')
          else match strip_prefix "null" s with Some r' => Some (JNull, r') | None =>
               match strip_prefix "true" s with Some r' => Some (JBool true, r') | None =>
               match strip_prefix "false" s with Some r' => Some (JBool false, r') | None =>
               match strip_prefix "NaN" s with Some r' => Some (JFloat S754_nan, r') | None =>
               match strip_prefix "Infinity" s with
               | Some r' => Some (JFloat (S754_infinity false), r') | None =>
               match strip_prefix "-Infinity" s with
               | Some r' => Some (JFloat (S754_infinity true), r') | None =>
               scan_number s
               end end end end end end
      | EmptyString => None
      end
  end
with parse_members (fuel : nat) (s : string) (acc : list (string * json))
  : option (list (string * json) * string) :=
  match fuel with
  | O => None
  | S fuel' =>
      match s with
      | String a r =>
          if Ascii.eqb a quote then
            '(k, r1) ← scan_string r;
            match skip_ws r1 with
            | String ":" r2 =>
                '(v, r3) ← scan_once fuel' (skip_ws r2);
                let acc' := dict_set k v acc in
                match skip_ws r3 with
                | String "}" r4 => Some (acc', r4)
                | String "," r4 => parse_members fuel' (skip_ws r4) acc'
                | _ => None
                end
            | _ => None
            end
          else None
      | EmptyString => None
      end
  end
with parse_elements (fuel : nat) (s : string) : option (list json * string) :=
  match fuel with
  | O => None
  | S fuel' =>
      '(v, r) ← scan_once fuel' s;
      match skip_ws r with
      | String "]" r' => Some ([v], r')
      | String "," r' => '(vs, r'') ← parse_elements fuel' (skip_ws r'); Some (v :: vs, r'')
      | _ => None
      end
  end.

(** Every call consumes a character before it recurses, and the element and
    member loops spend one unit per item, so twice the length suffices. *)
Definition loads (s : string) : option json :=
  '(v, r) ← scan_once (2 * String.length s + 2) (skip_ws s);
  if is_empty (skip_ws r) then Some v else None.

End Json.

(** ** The HTTP boundary *)

Module Http.
Import Py.

(** What the plugin reads of an [httpx.Response]: the status code and the
    value of [resp.json()] ([None] when that call raises). *)
Record response := { status_code : Z; json_body : option json }.

(** The outcome of one [client.post]: [None] when httpx raises instead of
    returning (connection error, timeout, ...). *)
Definition exchange := option response.

(** [resp.raise_for_status()] raises unless the status is 2xx. *)
Definition is_success (r : response) : bool :=
  ((200 <=? status_code r) && (status_code r <=? 299))%Z.

(** What [resp.aiter_lines()] delivers: lines, then either the end of the
    body or an exception.  A stream that breaks before its first line also
    stands for a [client.stream] call that never connects. *)
Inductive line_stream :=
| Eof
| Broken
| Line (line : string) (rest : line_stream).

Fixpoint lines_then (ls : list string) (tail : line_stream) : line_stream :=
  match ls with
  | [] => tail
  | l :: ls' => Line l (lines_then ls' tail)
  end.

(** The requests the plugin issues, with the payload fields it fills in. *)
Inductive request :=
| PostChat (model : string)                          (* CHAT_API_URL *)
| PostSelectModel (chat_id : json) (model : string)  (* SELECT_MODEL_URL *)
| PostSelectChoice (msg_id : json)                   (* SELECT_CHOICE_URL, choice_idx 0 *)
| PostStream (session_uuid : json) (text : string).  (* STREAM_API_URL *)

End Http.

(** ** The plugin *)

Module Anuneko.
Import Py Http.

Definition nl : string := String (ascii_of_N 10) EmptyString.

Record AnunekoConfig := {
  CHAT_API_URL : string;
  STREAM_API_URL : string;
  SELECT_CHOICE_URL : string;
  SELECT_MODEL_URL : string;
  DEFAULT_TOKEN : string;
  WATERMARK : string;
  TIMEOUT : Z;
  STREAM_TIMEOUT : Z
}.

Definition default_config : AnunekoConfig := {|
  CHAT_API_URL := "https://anuneko.com/api/v1/chat";
  STREAM_API_URL := "https://anuneko.com/api/v1/msg/{uuid}/stream";
  SELECT_CHOICE_URL := "https://anuneko.com/api/v1/msg/select-choice";
  SELECT_MODEL_URL := "https://anuneko.com/api/v1/user/select_model";
  DEFAULT_TOKEN := "x-token 自己改";
  WATERMARK := nl ++ nl ++ "—— 内容由 anuneko.com 提供，该服务只是一个第三方前端";
  TIMEOUT := 10;
  STREAM_TIMEOUT := 10
|}.

(** [user_sessions] maps qq to chat_id, [user_models] qq to the backend model
    name; [wire] lists the requests sent so far, oldest first. *)
Record plugin_state := {
  user_sessions : gmap string json;
  user_models : gmap string string;
  wire : list request
}.

Definition initial_state : plugin_state :=
  {| user_sessions := ∅; user_models := ∅; wire := [] |}.

Definition send (r : request) (s : plugin_state) : plugin_state :=
  {| user_sessions := user_sessions s; user_models := user_models s;
     wire := wire s ++ [r] |}.

Definition set_session (user_id : string) (chat_id : json) (s : plugin_state)
  : plugin_state :=
  {| user_sessions := <[user_id := chat_id]> (user_sessions s);
     user_models := user_models s; wire := wire s |}.

Definition set_model (user_id model_name : string) (s : plugin_state)
  : plugin_state :=
  {| user_sessions := user_sessions s;
     user_models := <[user_id := model_name]> (user_models s); wire := wire s |}.

(** *** Messages *)

Definition MSG_BRANCH : string := "⚠️ 检测到对话分支未选择，请重试或新建会话。".
Definition MSG_STREAM_FAILED : string := "请求失败，请稍后再试。".
Definition MSG_NEED_CONTENT : string := "❗ 请输入内容，例如：/chat 你好".
Definition MSG_CREATE_FAILED : string := "❌ 创建会话失败，请稍后再试。".
Definition MSG_SWITCH_NO_SESSION : string := "❌ 切换失败：无法创建会话".
Definition MSG_WHICH_MODEL : string := "请指定要切换的模型：橘猫 / 黑猫".

(** *** [_switch_model] *)

Definition _switch_model (user_id : string) (chat_id : json) (model_name : string)
    (x : exchange) (s : plugin_state) : bool * plugin_state :=
  let s := send (PostSelectModel chat_id model_name) s in
  match x with
  | Some resp =>
      if (status_code resp =? 200)%Z
      then (true, set_model user_id model_name s)
      else (false, s)
  | None => (false, s)                      (* except Exception: warning *)
  end.

(** *** [_create_new_session]

    [x_chat] answers the POST that creates the session, [x_model] the
    [_switch_model] call that follows a successful creation. *)

(** [data.get("chat_id") or data.get("id")] *)
Definition chat_id_of (data : json) : option json :=
  a ← get data "chat_id" JNull;
  if truthy a then Some a else get data "id" JNull.

Definition _create_new_session (user_id : string) (x_chat x_model : exchange)
    (s : plugin_state) : json * plugin_state :=
  let model := default "Orange Cat" (user_models s !! user_id) in
  let s := send (PostChat model) s in
  match (resp ← x_chat;
         if is_success resp then data ← json_body resp; chat_id_of data
         else None) with
  | Some chat_id =>
      if truthy chat_id then
        let s := set_session user_id chat_id s in
        let '(_, s) := _switch_model user_id chat_id model x_model s in
        (chat_id, s)
      else (JString EmptyString, s)
  | None => (JString EmptyString, s)        (* except Exception: logged *)
  end.

(** *** [_send_choice]: the response is not looked at, failures are dropped *)

Definition _send_choice (msg_id : json) (s : plugin_state) : plugin_state :=
  send (PostSelectChoice msg_id) s.

(** *** [_stream_reply]

    Before its [try] block the function formats the request URL,
    [config.STREAM_API_URL.format(uuid=session_uuid)].  The model is of the
    call from there on, that is, for a template that formats -- as the
    default one does, and every template in which each brace belongs to
    [{{], [}}] or [{uuid}].  For a template [str.format] rejects the
    exception leaves [_stream_reply] and [handle_chat_command] before any
    request is sent. *)

Record reply_acc := { result : string; current_msg_id : json }.

Definition with_result (r : string) (a : reply_acc) : reply_acc :=
  {| result := r; current_msg_id := current_msg_id a |}.

Definition with_msg_id (m : json) (a : reply_acc) : reply_acc :=
  {| result := result a; current_msg_id := m |}.

(** How the [async for] loop is left. *)
Inductive loop_exit :=
| Returned (message : string)     (* the [return] inside the loop *)
| Exhausted (a : reply_acc)       (* the stream ended *)
| Raised.                         (* the iterator raised *)

Section Decoder.

Variable loads : string -> option json.

(** The body of [for choice in j["c"]]; [None] when it raises. *)
Definition choice_step (result : string) (choice : json) : option string :=
  c ← get choice "c" (JInt 0);
  if eq_zero c then
    has_v ← py_in "v" choice;
    if (has_v : bool) then v ← getitem choice "v"; iadd result v else Some result
  else Some result.

(** The [for] loop; an exception leaves it with the text appended so far. *)
Fixpoint for_choices (choices : list json) (result : string) : option string * string :=
  match choices with
  | [] => (Some result, result)
  | choice :: rest =>
      match choice_step result choice with
      | Some result' => for_choices rest result'
      | None => (None, result)
      end
  end.

(** [if "msg_id" in j: current_msg_id = j["msg_id"]] *)
Definition take_msg_id (j : json) (a : reply_acc) : option reply_acc :=
  has_id ← py_in "msg_id" j;
  if (has_id : bool) then m ← getitem j "msg_id"; Some (with_msg_id m a) else Some a.

(** [x in j and isinstance(j[x], T)] *)
Definition has_typed (j : json) (k : string) (isinstance : json → bool) : option bool :=
  has_k ← py_in k j;
  if (has_k : bool) then v ← getitem j k; Some (isinstance v) else Some false.

(** The [if ... elif ...] on ["c"] and ["v"].  The second component is the
    text in [result] when the statement is left, normally or not. *)
Definition take_text (j : json) (result : string) : option unit * string :=
  match has_typed j "c" isinstance_list with
  | None => (None, result)
  | Some true =>
      match getitem j "c" with
      | Some (JList choices) =>
          let '(r, result') := for_choices choices result in (r ≫= λ _, Some (), result')
      | _ => (None, result)
      end
  | Some false =>
      match has_typed j "v" isinstance_str with
      | None => (None, result)
      | Some true =>
          match getitem j "v" ≫= iadd result with
          | Some result' => (Some (), result')
          | None => (None, result)
          end
      | Some false => (Some (), result)
      end
  end.

(** The [try] block run on a line that starts with ["data: "]; every
    exception in it is answered by [continue], so the accumulator it leaves
    is all that matters. *)
Definition data_frame (line : string) (a : reply_acc) : reply_acc :=
  let raw := slice_from 6 line in
  if is_empty (strip raw) then a else
  match loads raw with
  | None => a
  | Some j =>
      match take_msg_id j a with
      | None => a
      | Some a1 => with_result (snd (take_text j (result a1))) a1
      end
  end.

(** The [try] block run on any other non-empty line: [Some true] when the
    line carries the code [chat_choice_shown]. *)
Definition choice_shown (line : string) : option bool :=
  j ← loads line;
  code ← get j "code" JNull;
  Some (eq_str code "chat_choice_shown").

Fixpoint read_lines (ls : line_stream) (a : reply_acc) : loop_exit :=
  match ls with
  | Eof => Exhausted a
  | Broken => Raised
  | Line line rest =>
      if is_empty line then read_lines rest a
      else if negb (startswith line "data: ") then
        match choice_shown line with
        | Some true => Returned MSG_BRANCH
        | Some false => read_lines rest a
        | None => read_lines rest a           (* except Exception: continue *)
        end
      else read_lines rest (data_frame line a)
  end.

Definition _stream_reply (session_uuid : json) (text : string) (ls : line_stream)
    (s : plugin_state) : string * plugin_state :=
  let s := send (PostStream session_uuid text) s in
  match read_lines ls {| result := EmptyString; current_msg_id := JString EmptyString |} with
  | Returned message => (message, s)
  | Exhausted a =>
      (result a,
       if truthy (current_msg_id a) then _send_choice (current_msg_id a) s else s)
  | Raised => (MSG_STREAM_FAILED, s)        (* except Exception: logged *)
  end.

End Decoder.

(** *** [switch_model]

    [x_chat] and [x_model0] serve the session creation when the user has no
    session yet; [x_model] answers the switch itself. *)

Definition target_of (target : string) : option (string * string) :=
  if contains "橘猫" target || contains "orange" (lower target)
  then Some ("Orange Cat", "橘猫")
  else if contains "黑猫" target || contains "exotic" (lower target)
  then Some ("Exotic Shorthair", "黑猫")
  else None.

Definition switch_model (user_id target : string) (x_chat x_model0 x_model : exchange)
    (s : plugin_state) : string * plugin_state :=
  match target_of target with
  | None => (MSG_WHICH_MODEL, s)
  | Some (target_model, target_name) =>
      let finish (chat_id : json) (s : plugin_state) :=
        let '(ok, s) := _switch_model user_id chat_id target_model x_model s in
        (if ok then "✨ 已切换为：" ++ target_name
         else "❌ 切换为 " ++ target_name ++ " 失败", s) in
      match user_sessions s !! user_id with
      | None =>
          let '(chat_id, s) := _create_new_session user_id x_chat x_model0 s in
          if truthy chat_id then finish chat_id s else (MSG_SWITCH_NO_SESSION, s)
      | Some chat_id => finish chat_id s
      end
  end.

(** *** [new_session] *)

Definition new_session (user_id : string) (x_chat x_model : exchange)
    (s : plugin_state) : string * plugin_state :=
  let '(new_id, s) := _create_new_session user_id x_chat x_model s in
  if truthy new_id then
    let model_name :=
      match user_models s !! user_id with
      | Some m => if String.eqb m "Orange Cat" then "橘猫" else "黑猫"
      | None => "黑猫"
      end in
    ("已创建新的会话（当前模型：" ++ model_name ++ "）！", s)
  else (MSG_CREATE_FAILED, s).

(** *** [handle_chat_command]

    The first component is [None] if [user_sessions[user_id]] raises
    [KeyError].  The stream call is modelled for a [STREAM_API_URL] that
    formats (see [_stream_reply]). *)

Section Chat.

Variable config : AnunekoConfig.
Variable loads : string -> option json.

Definition handle_chat_command (user_id full_text : string)
    (x_chat x_model : exchange) (ls : line_stream) (s : plugin_state)
  : option string * plugin_state :=
  if negb (startswith (lstrip full_text) "/chat") then (Some EmptyString, s) else
  let content := lstrip (slice_from 5 (lstrip full_text)) in
  if is_empty content then (Some MSG_NEED_CONTENT, s) else
  (* session_id = user_sessions[user_id]; reply = await _stream_reply(...) *)
  let converse (s : plugin_state) :=
    match user_sessions s !! user_id with
    | None => (None, s)
    | Some session_id =>
        let '(reply, s) := _stream_reply loads session_id content ls s in
        (Some (reply ++ WATERMARK config), s)
    end in
  match user_sessions s !! user_id with
  | None =>
      let '(chat_id, s) := _create_new_session user_id x_chat x_model s in
      if truthy chat_id then converse s else (Some MSG_CREATE_FAILED, s)
  | Some _ => converse s
  end.

End Chat.

(** *** [clean_up] *)

Definition clean_up (s : plugin_state) : plugin_state :=
  {| user_sessions := ∅; user_models := ∅; wire := wire s |}.

End Anuneko.

(** ** Vocabulary of the statements *)

Module Terms.
Import Py Http Anuneko.

(** The accumulator [_stream_reply] starts from. *)
Definition fresh : reply_acc :=
  {| result := EmptyString; current_msg_id := JString EmptyString |}.

(** What [_stream_reply] returns for each way of leaving the loop. *)
Definition reply_of_exit (e : loop_exit) : string :=
  match e with
  | Returned message => message
  | Exhausted a => result a
  | Raised => MSG_STREAM_FAILED
  end.

(** A line that is not valid JSON where JSON is expected: after the prefix
    on a data frame, as a whole otherwise. *)
Definition unparseable (loads : string → option json) (line : string) : Prop :=
  if startswith line "data: "
  then loads (slice_from 6 line) = None
  else loads line = None.

Definition blank_or_garbage (loads : string → option json) (line : string) : Prop :=
  line = EmptyString ∨ unparseable loads line.

(** A non-empty line without the data-frame prefix that parses as a record
    whose ["code"] is the sentinel. *)
Definition announces_choice (loads : string → option json) (line : string) : Prop :=
  is_empty line = false ∧
  startswith line "data: " = false ∧
  ∃ kvs, loads line = Some (JObject kvs) ∧
         dict_lookup "code" kvs = Some (JString "chat_choice_shown").

(** The select-model exchange succeeds on status 200 only. *)
Definition select_ok (x : exchange) : bool :=
  match x with
  | Some resp => (status_code resp =? 200)%Z
  | None => false
  end.


(** Session creation succeeds with identifier [chat_id]. *)
Definition creation_yields (x : exchange) (chat_id : json) : Prop :=
  ∃ resp data, x = Some resp ∧ is_success resp = true ∧
               json_body resp = Some data ∧
               chat_id_of data = Some chat_id ∧ truthy chat_id = true.

(** The identifier a creation exchange provides, if any. *)
Definition created_id (x : exchange) : option json :=
  match x with
  | Some resp =>
      if is_success resp then
        match json_body resp with
        | Some data =>
            match chat_id_of data with
            | Some chat_id => if truthy chat_id then Some chat_id else None
            | None => None
            end
        | None => None
        end
      else None
  | None => None
  end.

(** The session [switch_model] works on: the stored one, or the one it
    creates for a user without a session. *)
Definition session_in_use (user_id : string) (x_chat : exchange) (s : plugin_state)
    (chat_id : json) : Prop :=
  user_sessions s !! user_id = Some chat_id ∨
  (user_sessions s !! user_id = None ∧ creation_yields x_chat chat_id).

(** A field that is present with a truthy value, and one that is absent or
    falsy. *)
Definition usable (kvs : list (string * json)) (k : string) (v : json) : Prop :=
  dict_lookup k kvs = Some v ∧ truthy v = true.

Definition unusable (kvs : list (string * json)) (k : string) : Prop :=
  ∀ v, dict_lookup k kvs = Some v → truthy v = false.

Definition has_session (user_id : string) (s : plugin_state) : bool :=
  match user_sessions s !! user_id with Some _ => true | None => false end.

End Terms.

(** ** Sample inputs *)

Module Sample.
Import Py Http Anuneko Terms.

(** JSON texts are written with apostrophes where the wire has double
    quotes. *)
Fixpoint quoted (s : string) : string :=
  match s with
  | EmptyString => EmptyString
  | String a rest => String (if Ascii.eqb a "'" then Json.quote else a) (quoted rest)
  end.

Definition round_trip_lines : list string :=
  map quoted
    [ "data: {'msg_id':'m1'}";
      "data: {'c':[{'c':0,'v':'He'},{'c':1,'v':'X'}]}";
      "data: {'c':[{'c':0,'v':'llo'}]}" ].

Definition choice_shown_line : string := quoted "{'code':'chat_choice_shown'}".

Definition ok_response (data : json) : exchange :=
  Some {| status_code := 200; json_body := Some data |}.

Definition error_response (status : Z) : exchange :=
  Some {| status_code := status; json_body := None |}.

Definition session_abc : json := JObject [("chat_id", JString "abc")].

End Sample.

(** ** Request headers *)

Module Environment.
Import Py Anuneko.

(** A [Dict[str, str]] of headers, in insertion order. *)
Fixpoint header_lookup (k : string) (h : list (string * string)) : option string :=
  match h with
  | [] => None
  | (k', v) :: rest => if String.eqb k' k then Some v else header_lookup k rest
  end.

(** [headers[k] = v] *)
Fixpoint header_set (k v : string) (h : list (string * string))
  : list (string * string) :=
  match h with
  | [] => [(k, v)]
  | (k', v') :: rest =>
      if String.eqb k' k then (k', v) :: rest else (k', v') :: header_set k v rest
  end.

(** [_build_headers], with [os.environ] as a finite map. *)
Definition _build_headers (config : AnunekoConfig) (environ : gmap string string)
  : list (string * string) :=
  let token := default (DEFAULT_TOKEN config) (environ !! "ANUNEKO_TOKEN") in
  let cookie := environ !! "ANUNEKO_COOKIE" in
  let headers :=
    [ ("accept", "*/*");
      ("content-type", "application/json");
      ("origin", "https://anuneko.com");
      ("referer", "https://anuneko.com/");
      ("user-agent", "Mozilla/5.0");
      ("x-app_id", "com.anuttacon.neko");
      ("x-client_type", "4");
      ("x-device_id", "7b75a432-6b24-48ad-b9d3-3dc57648e3e3");
      ("x-token", token) ] in
  match cookie with
  | Some c => if is_empty c then headers else header_set "Cookie" c headers
  | None => headers
  end.

(** The headers [_stream_reply] builds for its own request. *)
Definition stream_headers (config : AnunekoConfig) (environ : gmap string string)
  : list (string * string) :=
  let headers :=
    [ ("x-token", default (DEFAULT_TOKEN config) (environ !! "ANUNEKO_TOKEN"));
      ("Content-Type", "text/plain") ] in
  match environ !! "ANUNEKO_COOKIE" with
  | Some c => if is_empty c then headers else header_set "Cookie" c headers
  | None => headers
  end.

End Environment.

(** ** Further vocabulary *)

Module Notions.
Import Py Http Anuneko Terms.

(** The branch-choice request a stream call issues after its loop. *)
Definition choice_requests (loads : string → option json) (ls : line_stream)
  : list request :=
  match read_lines loads ls fresh with
  | Exhausted a =>
      if truthy (current_msg_id a) then [PostSelectChoice (current_msg_id a)] else []
  | _ => []
  end.

(** A choice on which the loop body raises: not a record, or an accepted
    record whose ["v"] is not text. *)
Definition malformed_choice (choice : json) : Prop :=
  (∀ kvs, choice ≠ JObject kvs) ∨
  (∃ kvs v, choice = JObject kvs ∧
            eq_zero (default (JInt 0) (dict_lookup "c" kvs)) = true ∧
            dict_lookup "v" kvs = Some v ∧ isinstance_str v = false).

(** Every stored session identifier is truthy. *)
Definition sessions_truthy (s : plugin_state) : Prop :=
  ∀ u c, user_sessions s !! u = Some c → truthy c = true.

(** Every recorded model is one of the two backend names. *)
Definition models_known (s : plugin_state) : Prop :=
  ∀ u m, user_models s !! u = Some m → m = "Orange Cat" ∨ m = "Exotic Shorthair".

(** The same dictionaries, with earlier traffic in front of the log. *)
Definition prepend (w : list request) (s : plugin_state) : plugin_state :=
  {| user_sessions := user_sessions s; user_models := user_models s;
     wire := w ++ wire s |}.

(** A string of ASCII whitespace. *)
Fixpoint spaces (s : string) : bool :=
  match s with
  | EmptyString => true
  | String a rest => space1 a && spaces rest
  end.

(** What [handle_chat_command] takes as the message of a command. *)
Definition chat_content (full_text : string) : string :=
  lstrip (slice_from 5 (lstrip full_text)).

(** The text is a command with something to say. *)
Definition speaks (full_text : string) : bool :=
  startswith (lstrip full_text) "/chat" && negb (is_empty (chat_content full_text)).

(** What an operation on behalf of [u] may do to the two dictionaries: store
    a truthy session identifier for [u]; record for [u], who then has a
    session, a backend model name or the model already recorded. *)
Definition changes_only (u : string) (s s' : plugin_state) : Prop :=
  (user_sessions s' = user_sessions s ∨
   ∃ c, truthy c = true ∧ user_sessions s' = <[u := c]> (user_sessions s)) ∧
  (user_models s' = user_models s ∨
   ∃ m, (m = "Orange Cat" ∨ m = "Exotic Shorthair" ∨ user_models s !! u = Some m) ∧
        is_Some (user_sessions s' !! u) ∧
        user_models s' = <[u := m]> (user_models s)).

(** The calls the host can make on the mounted methods, each with the
    backend outcomes it meets. *)
Inductive call :=
| CallSwitch (user_id target : string) (x_chat x_model0 x_model : exchange)
| CallNewSession (user_id : string) (x_chat x_model : exchange)
| CallChat (user_id full_text : string) (x_chat x_model : exchange) (ls : line_stream)
| CallCleanUp.

Definition run (config : AnunekoConfig) (loads : string → option json)
    (c : call) (s : plugin_state) : plugin_state :=
  match c with
  | CallSwitch u target x_chat x_model0 x_model =>
      snd (switch_model u target x_chat x_model0 x_model s)
  | CallNewSession u x_chat x_model => snd (new_session u x_chat x_model s)
  | CallChat u full_text x_chat x_model ls =>
      snd (handle_chat_command config loads u full_text x_chat x_model ls s)
  | CallCleanUp => clean_up s
  end.

Definition run_all (config : AnunekoConfig) (loads : string → option json)
    (cs : list call) (s : plugin_state) : plugin_state :=
  fold_left (λ s c, run config loads c s) cs s.

(** A user with a recorded model has a session. *)
Definition models_have_sessions (s : plugin_state) : Prop :=
  ∀ u, is_Some (user_models s !! u) → is_Some (user_sessions s !! u).

(** The user a call acts for; [clean_up] acts for all. *)
Definition concerns (v : string) (c : call) : Prop :=
  match c with
  | CallSwitch u _ _ _ _ | CallNewSession u _ _ | CallChat u _ _ _ _ => u = v
  | CallCleanUp => True
  end.

(** A [STREAM_API_URL] template in which every brace belongs to an escaped
    brace or to the field [{uuid}]: [template.format(uuid=x)] returns for
    every [x]. *)
Fixpoint plain_template (t : string) : bool :=
  match t with
  | EmptyString => true
  | String "{" (String "{" rest) => plain_template rest
  | String "}" (String "}" rest) => plain_template rest
  | String "{" (String "u" (String "u" (String "i" (String "d" (String "}" rest))))) =>
      plain_template rest
  | String "{" _ => false
  | String "}" _ => false
  | String _ rest => plain_template rest
  end.

(** A line that is not of the expected format: empty; without the
    data-frame prefix and not a JSON record (not JSON at all, or a list, a
    string, a number, ...); or a data frame whose payload is blank or not a
    JSON record. *)
Definition ignorable (loads : string → option json) (line : string) : Prop :=
  line = EmptyString ∨
  (startswith line "data: " = false ∧ ∀ kvs, loads line ≠ Some (JObject kvs)) ∨
  (startswith line "data: " = true ∧
   (is_empty (strip (slice_from 6 line)) = true ∨
    ∀ kvs, loads (slice_from 6 line) ≠ Some (JObject kvs))).

(** A line that neither carries a message id nor announces the pending
    choice: a data frame whose payload is not a record with ["msg_id"], or
    any other line that does not announce. *)
Definition keeps_message_id (loads : string → option json) (line : string) : Prop :=
  if startswith line "data: "
  then ∀ kvs, loads (slice_from 6 line) = Some (JObject kvs) →
              dict_lookup "msg_id" kvs = None
  else ¬ announces_choice loads line.

(** A string whose bytes all lie outside ASCII. *)
Fixpoint high (k : string) : bool :=
  match k with
  | EmptyString => true
  | String a rest => (128 <=? byte a)%N && high rest
  end.

End Notions.

Import Py Http Anuneko Terms Sample.
Import Environment Notions.

(** ** The stream loop *)

Section StreamFacts.

Variable loads : string -> option json.

Lemma read_lines_notice line rest a :
  is_empty line = false →
  startswith line "data: " = false →
  read_lines loads (Line line rest) a =
    match choice_shown loads line with
    | Some true => Returned MSG_BRANCH
    | _ => read_lines loads rest a
    end.
Proof.
  intros Hne Hpre. cbn [read_lines]. rewrite Hne, Hpre. cbn [negb].
  by destruct (choice_shown loads line) as [[|]|].
Qed.

(** Once a line announces [chat_choice_shown], the lines before it cannot
    change the outcome and the lines after it are not read. *)
Lemma read_lines_choice_shown before line rest a :
  is_empty line = false →
  startswith line "data: " = false →
  choice_shown loads line = Some true →
  read_lines loads (lines_then before (Line line rest)) a = Returned MSG_BRANCH.
Proof.
  intros Hne Hpre Hshown. revert a.
  induction before as [|l before IH]; intros a; cbn [lines_then].
  - by rewrite read_lines_notice, Hshown.
  - cbn [read_lines].
    destruct (is_empty l); [apply IH|].
    destruct (negb (startswith l "data: ")); [|apply IH].
    destruct (choice_shown loads l) as [[|]|]; [reflexivity | apply IH | apply IH].
Qed.

Lemma choice_shown_of_record line kvs :
  loads line = Some (JObject kvs) →
  dict_lookup "code" kvs = Some (JString "chat_choice_shown") →
  choice_shown loads line = Some true.
Proof.
  intros Hj Hcode. unfold choice_shown. rewrite Hj. cbn. by rewrite Hcode.
Qed.

Lemma data_frame_unparseable line a :
  loads (slice_from 6 line) = None → data_frame loads line a = a.
Proof.
  intros Hj. unfold data_frame. rewrite Hj.
  by destruct (is_empty (strip (slice_from 6 line))).
Qed.

Lemma read_lines_skips line rest a :
  blank_or_garbage loads line →
  read_lines loads (Line line rest) a = read_lines loads rest a.
Proof.
  intros [-> | Hbad]; [reflexivity|].
  unfold unparseable in Hbad. cbn [read_lines].
  destruct (is_empty line); [reflexivity|].
  destruct (startswith line "data: "); cbn [negb].
  - by rewrite data_frame_unparseable.
  - unfold choice_shown. by rewrite Hbad.
Qed.

Lemma read_lines_all_skipped ls a :
  Forall (blank_or_garbage loads) ls →
  read_lines loads (lines_then ls Eof) a = Exhausted a.
Proof.
  induction 1 as [|line ls Hline _ IH]; cbn [lines_then]; [reflexivity|].
  by rewrite read_lines_skips.
Qed.

(** The string [_stream_reply] returns depends on the lines alone. *)
Lemma stream_reply_text session text ls s :
  fst (_stream_reply loads session text ls s) = reply_of_exit (read_lines loads ls fresh).
Proof.
  unfold _stream_reply. fold fresh. by destruct (read_lines loads ls fresh).
Qed.

End StreamFacts.

(** ** Records and choice lists *)

Lemma for_choices_app before after r :
  for_choices (before ++ after) r =
    match for_choices before r with
    | (Some r1, _) => for_choices after r1
    | (None, r') => (None, r')
    end.
Proof.
  revert r. induction before as [|choice before IH]; intros r; cbn; [reflexivity|].
  destruct (choice_step r choice); [apply IH | reflexivity].
Qed.

Lemma choice_step_untagged kvs text r :
  dict_lookup "c" kvs = None →
  dict_lookup "v" kvs = Some (JString text) →
  choice_step r (JObject kvs) = Some (r ++ text).
Proof.
  intros Hc Hv. unfold choice_step. cbn. unfold dict_has. rewrite Hc, Hv. reflexivity.
Qed.

Lemma take_msg_id_record kvs a :
  take_msg_id (JObject kvs) a =
    Some (match dict_lookup "msg_id" kvs with
          | Some m => with_msg_id m a
          | None => a
          end).
Proof.
  unfold take_msg_id. cbn. unfold dict_has.
  by destruct (dict_lookup "msg_id" kvs).
Qed.

Lemma take_text_record kvs r :
  snd (take_text (JObject kvs) r) =
    match dict_lookup "c" kvs with
    | Some (JList choices) => snd (for_choices choices r)
    | _ => match dict_lookup "v" kvs with
           | Some (JString t) => r ++ t
           | _ => r
           end
    end.
Proof.
  unfold take_text, has_typed. cbn. unfold dict_has.
  destruct (dict_lookup "c" kvs) as [[]|]; cbn;
    try (destruct (dict_lookup "v" kvs) as [[]|]; reflexivity).
  by destruct (for_choices l r).
Qed.

Lemma data_frame_record loads line kvs a :
  is_empty (strip (slice_from 6 line)) = false →
  loads (slice_from 6 line) = Some (JObject kvs) →
  data_frame loads line a =
    let a1 := match dict_lookup "msg_id" kvs with
              | Some m => with_msg_id m a
              | None => a
              end in
    with_result (snd (take_text (JObject kvs) (result a1))) a1.
Proof.
  intros Hblank Hj. unfold data_frame. by rewrite Hblank, Hj, take_msg_id_record.
Qed.

(** ** Session creation and model selection *)

Lemma switch_model_result u c m x s :
  _switch_model u c m x s =
    (select_ok x,
     let s1 := send (PostSelectModel c m) s in
     if select_ok x then set_model u m s1 else s1).
Proof.
  unfold _switch_model, select_ok. destruct x as [resp|]; [|reflexivity].
  by destruct (status_code resp =? 200)%Z.
Qed.

Lemma create_new_session_result u x_chat x_model s :
  _create_new_session u x_chat x_model s =
    let model := default "Orange Cat" (user_models s !! u) in
    let s1 := send (PostChat model) s in
    match created_id x_chat with
    | Some c => (c, snd (_switch_model u c model x_model (set_session u c s1)))
    | None => (JString EmptyString, s1)
    end.
Proof.
  unfold _create_new_session, created_id. destruct x_chat as [resp|]; [|reflexivity].
  cbn. destruct (is_success resp); [|reflexivity].
  destruct (json_body resp) as [data|]; [|reflexivity]. cbn.
  destruct (chat_id_of data) as [c|]; [|reflexivity].
  destruct (truthy c); [|reflexivity].
  by destruct (_switch_model _ _ _ _ _).
Qed.

Lemma created_id_truthy x c : created_id x = Some c → truthy c = true.
Proof.
  unfold created_id. intros H.
  destruct x as [resp|]; [|discriminate].
  destruct (is_success resp); [|discriminate].
  destruct (json_body resp) as [data|]; [|discriminate].
  destruct (chat_id_of data) as [c'|]; [|discriminate].
  destruct (truthy c') eqn:Ht; [|discriminate].
  by injection H as <-.
Qed.

Lemma creation_yields_created x c : creation_yields x c → created_id x = Some c.
Proof.
  intros (resp & data & -> & Hok & Hbody & Hid & Ht).
  unfold created_id. by rewrite Hok, Hbody, Hid, Ht.
Qed.


Lemma create_new_session_state u x_chat x_model s :
  let out := _create_new_session u x_chat x_model s in
  match created_id x_chat with
  | Some c =>
      fst out = c ∧
      user_sessions (snd out) = <[u := c]> (user_sessions s) ∧
      user_models (snd out) =
        (if select_ok x_model
         then <[u := default "Orange Cat" (user_models s !! u)]> (user_models s)
         else user_models s)
  | None =>
      fst out = JString EmptyString ∧
      user_sessions (snd out) = user_sessions s ∧
      user_models (snd out) = user_models s
  end.
Proof.
  cbn zeta. rewrite create_new_session_result. cbn zeta.
  destruct (created_id x_chat) as [c|]; [|done].
  rewrite switch_model_result. cbn. by destruct (select_ok x_model).
Qed.

Lemma dict_lookup_set_eq k v kvs : dict_lookup k (dict_set k v kvs) = Some v.
Proof.
  induction kvs as [|[k' v'] kvs IH]; cbn.
  - by rewrite String.eqb_refl.
  - destruct (String.eqb k' k) eqn:E; cbn; rewrite E; [reflexivity | apply IH].
Qed.

Lemma dict_lookup_set_ne k k0 v kvs :
  k0 ≠ k → dict_lookup k (dict_set k0 v kvs) = dict_lookup k kvs.
Proof.
  intros Hne. induction kvs as [|[k' v'] kvs IH]; cbn.
  - destruct (String.eqb_spec k0 k); [contradiction | reflexivity].
  - destruct (String.eqb_spec k' k0) as [-> | Hk]; cbn.
    + by destruct (String.eqb_spec k0 k).
    + destruct (String.eqb k' k); [reflexivity | apply IH].
Qed.

Lemma unusable_default kvs k :
  unusable kvs k → truthy (default JNull (dict_lookup k kvs)) = false.
Proof.
  intros Hun. destruct (dict_lookup k kvs) as [v|] eqn:E; cbn; [by apply Hun | reflexivity].
Qed.

(** The label [new_session] reports for a user without a recorded model
    follows the outcome of the selection sent with the creation. *)
Lemma new_session_label_of_unrecorded_user u x_chat x_model s c :
  user_models s !! u = None →
  created_id x_chat = Some c →
  fst (new_session u x_chat x_model s) =
    "已创建新的会话（当前模型：" ++ (if select_ok x_model then "橘猫" else "黑猫") ++ "）！".
Proof.
  intros Hnone Hid. unfold new_session.
  pose proof (create_new_session_state u x_chat x_model s) as Hc. cbn zeta in Hc.
  rewrite Hid in Hc.
  destruct (_create_new_session u x_chat x_model s) as [c' s1].
  cbn [fst snd] in Hc. destruct Hc as (-> & _ & Hmod).
  rewrite (created_id_truthy _ _ Hid), Hmod, Hnone. cbn [default from_option id].
  destruct (select_ok x_model); [by rewrite lookup_insert_eq | by rewrite Hnone].
Qed.

(** With a stream URL template that formats, [handle_chat_command] lets no
    exception through: the lookup that follows a successful creation finds
    the identifier just stored. *)
Lemma handle_chat_command_returns config loads u full_text x_chat x_model ls s :
  plain_template (STREAM_API_URL config) = true →
  is_Some (fst (handle_chat_command config loads u full_text x_chat x_model ls s)).
Proof.
  intros _. unfold handle_chat_command.
  destruct (startswith (lstrip full_text) "/chat"); cbn [negb]; [|by eexists].
  destruct (is_empty _); [by eexists|].
  destruct (user_sessions s !! u) as [sid|] eqn:Hs.
  - cbn beta zeta. destruct (_stream_reply _ _ _ _ _). by eexists.
  - pose proof (create_new_session_state u x_chat x_model s) as Hc. cbn zeta in Hc.
    destruct (created_id x_chat) as [c|] eqn:Hid;
      destruct (_create_new_session u x_chat x_model s) as [c' s1];
      cbn [fst snd] in Hc; destruct Hc as (-> & Hsess & _).
    + rewrite (created_id_truthy _ _ Hid). cbn beta zeta.
      rewrite Hsess, lookup_insert_eq.
      destruct (_stream_reply _ _ _ _ _). by eexists.
    + cbn. by eexists.
Qed.

(** What [handle_chat_command] returns, with a stream URL template that
    formats: the watermark follows whatever [_stream_reply] returns -- the
    aggregated text, the unresolved-branch retry message and the
    transport-failure message alike -- and only the replies given before the
    stream call come back without it. *)
Lemma watermark_follows_every_stream_reply
    config loads u full_text x_chat x_model ls s :
  plain_template (STREAM_API_URL config) = true →
  fst (handle_chat_command config loads u full_text x_chat x_model ls s) =
    Some (if negb (startswith (lstrip full_text) "/chat") then EmptyString
          else if is_empty (lstrip (slice_from 5 (lstrip full_text)))
          then MSG_NEED_CONTENT
          else if negb (has_session u s)
                  && negb (truthy (fst (_create_new_session u x_chat x_model s)))
          then MSG_CREATE_FAILED
          else reply_of_exit (read_lines loads ls fresh) ++ WATERMARK config).
Proof.
  intros _. unfold handle_chat_command, has_session.
  destruct (startswith (lstrip full_text) "/chat"); cbn [negb]; [|reflexivity].
  destruct (is_empty _); [reflexivity|].
  destruct (user_sessions s !! u) as [sid|] eqn:Hs.
  - cbn beta zeta. cbn [negb andb].
    rewrite <- (stream_reply_text loads sid (lstrip (slice_from 5 (lstrip full_text))) ls s).
    by destruct (_stream_reply _ _ _ _ _).
  - pose proof (create_new_session_state u x_chat x_model s) as Hc. cbn zeta in Hc.
    destruct (created_id x_chat) as [c|] eqn:Hid;
      destruct (_create_new_session u x_chat x_model s) as [c' s1];
      cbn [fst snd] in *; destruct Hc as (-> & Hsess & _).
    + rewrite (created_id_truthy _ _ Hid). cbn beta zeta.
      rewrite Hsess, lookup_insert_eq. cbn [negb andb].
      rewrite <- (stream_reply_text loads c (lstrip (slice_from 5 (lstrip full_text))) ls s1).
      by destruct (_stream_reply _ _ _ _ _).
    + reflexivity.
Qed.

(** ** Lines that are not of the expected format *)

(** Closes [∀ kvs, loads text ≠ Some (JObject kvs)] on a given text. *)
Ltac not_a_record :=
  let kvs := fresh "kvs" in
  let H := fresh "H" in
  intros kvs H; vm_compute in H; discriminate H.

Lemma with_result_same a : with_result (result a) a = a.
Proof. by destruct a. Qed.

Lemma data_frame_non_record loads line j a :
  loads (slice_from 6 line) = Some j →
  (∀ kvs, j ≠ JObject kvs) →
  data_frame loads line a = a.
Proof.
  intros Hj Hrec. unfold data_frame. rewrite Hj.
  destruct (is_empty (strip (slice_from 6 line))); [reflexivity|].
  destruct j as [| | | | t | l | kvs]; try reflexivity.
  - unfold take_msg_id, take_text, has_typed. cbn.
    destruct (contains "msg_id" t); cbn; [reflexivity|].
    destruct (contains "c" t); cbn; [apply with_result_same|].
    destruct (contains "v" t); cbn; apply with_result_same.
  - unfold take_msg_id, take_text, has_typed. cbn.
    destruct (existsb _ l); cbn; [reflexivity|].
    destruct (existsb _ l); cbn; [apply with_result_same|].
    destruct (existsb _ l); cbn; apply with_result_same.
  - by destruct (Hrec kvs).
Qed.

Lemma choice_shown_non_record loads line :
  (∀ kvs, loads line ≠ Some (JObject kvs)) → choice_shown loads line = None.
Proof.
  intros Hrec. unfold choice_shown.
  destruct (loads line) as [j|]; [|reflexivity].
  destruct j; try reflexivity. by destruct (Hrec kvs).
Qed.

Lemma read_lines_ignorable loads line rest a :
  ignorable loads line →
  read_lines loads (Line line rest) a = read_lines loads rest a.
Proof.
  intros [-> | [[Hpre Hrec] | [Hpre Hpay]]]; [reflexivity | |]; cbn [read_lines].
  - destruct (is_empty line); [reflexivity|]. rewrite Hpre. cbn [negb].
    by rewrite choice_shown_non_record.
  - destruct (is_empty line); [reflexivity|]. rewrite Hpre. cbn [negb]. f_equal.
    destruct Hpay as [Hblank | Hrec].
    + unfold data_frame. by rewrite Hblank.
    + destruct (loads (slice_from 6 line)) as [j|] eqn:Hj.
      * apply (data_frame_non_record loads line j a Hj). intros kvs ->. by apply (Hrec kvs).
      * by apply data_frame_unparseable.
Qed.

Lemma read_lines_all_ignorable loads ls a :
  Forall (ignorable loads) ls →
  read_lines loads (lines_then ls Eof) a = Exhausted a.
Proof.
  induction 1 as [|line ls Hline _ IH]; cbn [lines_then]; [reflexivity|].
  by rewrite read_lines_ignorable.
Qed.

(** ** Properties stated by the specification *)

(** C1, at the failing inputs.  The watermark belongs to the model's reply,
    and the failure and prompt returns of [handle_chat_command] itself carry
    none; yet a stream that announces [chat_choice_shown], and one that
    breaks, both come back with the watermark after the message, because
    [_stream_reply] hands its two error messages back as ordinary replies. *)
Lemma watermark_on_retry_and_failure_messages :
  fst (handle_chat_command default_config Json.loads "u1" "/chat hi"
         (ok_response session_abc) (ok_response JNull)
         (Line choice_shown_line Eof) initial_state)
    = Some (MSG_BRANCH ++ WATERMARK default_config) ∧
  fst (handle_chat_command default_config Json.loads "u1" "/chat hi"
         (ok_response session_abc) (ok_response JNull) Broken initial_state)
    = Some (MSG_STREAM_FAILED ++ WATERMARK default_config) ∧
  MSG_BRANCH ++ WATERMARK default_config ≠ MSG_BRANCH ∧
  MSG_STREAM_FAILED ++ WATERMARK default_config ≠ MSG_STREAM_FAILED.
Proof. repeat split; try (vm_compute; reflexivity); vm_compute; discriminate. Qed.

(** C2.  The three sample lines decode and aggregate to the text [Hello]
    with last message id [m1]; the stream call returns that text and sends
    the branch choice for [m1]; the choice tagged 1 adds nothing. *)
Theorem decoder_round_trip :
  read_lines Json.loads (lines_then round_trip_lines Eof) fresh
    = Exhausted {| result := "Hello"; current_msg_id := JString "m1" |} ∧
  _stream_reply Json.loads (JString "abc") "hi" (lines_then round_trip_lines Eof)
      initial_state
    = ("Hello",
       {| user_sessions := ∅; user_models := ∅;
          wire := [PostStream (JString "abc") "hi"; PostSelectChoice (JString "m1")] |}) ∧
  ∀ r, choice_step r (JObject [("c", JInt 1); ("v", JString "X")]) = Some r.
Proof. split; [|split]; [vm_compute; reflexivity .. | intros r; reflexivity]. Qed.

(** C3.  If a line without the data-frame prefix parses as a record whose
    code is [chat_choice_shown], the loop returns at that line: whatever the
    earlier lines accumulated and whatever would follow, the stream call
    returns the unresolved-branch retry message (and sends no branch
    choice). *)
Theorem choice_shown_wins loads before line rest a session text s :
  announces_choice loads line →
  read_lines loads (lines_then before (Line line rest)) a = Returned MSG_BRANCH ∧
  _stream_reply loads session text (lines_then before (Line line rest)) s
    = (MSG_BRANCH, send (PostStream session text) s).
Proof.
  intros (Hne & Hpre & kvs & Hj & Hcode).
  pose proof (choice_shown_of_record loads line kvs Hj Hcode) as Hshown.
  split; [by apply read_lines_choice_shown|].
  unfold _stream_reply. by rewrite read_lines_choice_shown.
Qed.

Lemma choice_shown_wins_witness :
  announces_choice Json.loads choice_shown_line ∧
  _stream_reply Json.loads (JString "abc") "hi"
      (lines_then [quoted "data: {'v':'partial'}"] (Line choice_shown_line Broken))
      initial_state
    = (MSG_BRANCH, send (PostStream (JString "abc") "hi") initial_state).
Proof.
  assert (H : announces_choice Json.loads choice_shown_line).
  { split; [reflexivity|]. split; [reflexivity|].
    exists [("code", JString "chat_choice_shown")]. split; vm_compute; reflexivity. }
  split; [exact H|].
  exact (proj2 (choice_shown_wins Json.loads [quoted "data: {'v':'partial'}"]
                  choice_shown_line Broken fresh (JString "abc") "hi" initial_state H)).
Defined.




(** C5.  A stream made only of empty lines and of lines that are not of
    the expected format -- text that is not JSON, JSON that is not a record,
    with or without the data-frame prefix, and data frames with a blank
    payload -- ends as a success with nothing in it: the loop is exhausted
    with the accumulator it started from, and the stream call returns the
    empty text -- not the failure message -- and sends no branch choice,
    there being no message id. *)
Theorem garbage_stream_is_an_empty_success loads ls session text s :
  Forall (ignorable loads) ls →
  read_lines loads (lines_then ls Eof) fresh = Exhausted fresh ∧
  _stream_reply loads session text (lines_then ls Eof) s
    = (EmptyString, send (PostStream session text) s).
Proof.
  intros Hls. split; [by apply read_lines_all_ignorable|].
  unfold _stream_reply. fold fresh. by rewrite read_lines_all_ignorable.
Qed.

Lemma garbage_stream_is_an_empty_success_witness :
  _stream_reply Json.loads (JString "abc") "hi"
      (lines_then [EmptyString; "garbage"; "42"; "[1,"; "[1]"; "data: {oops";
                   "data: 42"; quoted "data: ['msg_id','v']"; "data: "; "data:    "] Eof)
      initial_state
    = (EmptyString, send (PostStream (JString "abc") "hi") initial_state).
Proof.
  refine (proj2 (garbage_stream_is_an_empty_success Json.loads
                   [EmptyString; "garbage"; "42"; "[1,"; "[1]"; "data: {oops";
                    "data: 42"; quoted "data: ['msg_id','v']"; "data: "; "data:    "]
                   (JString "abc") "hi" initial_state _)).
  apply List.Forall_cons; [by left|].
  apply List.Forall_cons; [right; left; split; [reflexivity | not_a_record]|].
  apply List.Forall_cons; [right; left; split; [reflexivity | not_a_record]|].
  apply List.Forall_cons; [right; left; split; [reflexivity | not_a_record]|].
  apply List.Forall_cons; [right; left; split; [reflexivity | not_a_record]|].
  apply List.Forall_cons; [right; right; split; [reflexivity | right; not_a_record]|].
  apply List.Forall_cons; [right; right; split; [reflexivity | right; not_a_record]|].
  apply List.Forall_cons; [right; right; split; [reflexivity | right; not_a_record]|].
  apply List.Forall_cons; [right; right; split; [reflexivity | left; reflexivity]|].
  apply List.Forall_cons; [right; right; split; [reflexivity | left; reflexivity]|].
  apply List.Forall_nil.
Defined.

(** C6, at the failing input.  A user without a recorded model creates a
    session; the backend accepts the creation (requested for
    [Orange Cat]) and rejects the model selection that follows.  The
    confirmation then names the other model. *)
Theorem new_session_label_without_recorded_model :
  let out := new_session "u1" (ok_response session_abc) (error_response 500)
               initial_state in
  fst out = "已创建新的会话（当前模型：黑猫）！" ∧
  wire (snd out) = [PostChat "Orange Cat"; PostSelectModel (JString "abc") "Orange Cat"] ∧
  user_sessions (snd out) !! "u1" = Some (JString "abc") ∧
  user_models (snd out) !! "u1" = None.
Proof. repeat split; vm_compute; reflexivity. Qed.

(** C7, as amended.  On a successful creation response the identifier is
    the value of ["chat_id"] if that field is present and truthy, otherwise
    the value of ["id"] if present and truthy (first truthy wins); if neither
    is, the operation fails: it returns the empty string and stores
    nothing. *)
Theorem session_id_first_truthy_field u resp kvs x_model s :
  is_success resp = true →
  json_body resp = Some (JObject kvs) →
  let out := _create_new_session u (Some resp) x_model s in
  (∀ a, usable kvs "chat_id" a →
        fst out = a ∧ user_sessions (snd out) !! u = Some a) ∧
  (∀ b, unusable kvs "chat_id" → usable kvs "id" b →
        fst out = b ∧ user_sessions (snd out) !! u = Some b) ∧
  (unusable kvs "chat_id" → unusable kvs "id" →
        fst out = JString EmptyString ∧ user_sessions (snd out) = user_sessions s).
Proof.
  intros Hok Hbody out.
  pose proof (create_new_session_state u (Some resp) x_model s) as Hc.
  cbn zeta in Hc. fold out in Hc. clearbody out.
  unfold created_id in Hc. rewrite Hok, Hbody in Hc.
  unfold chat_id_of in Hc. cbn [get mbind option_bind] in Hc.
  split; [|split].
  - intros a [Ha Hta]. rewrite Ha in Hc. cbn in Hc.
    rewrite Hta in Hc. cbn in Hc. rewrite Hta in Hc. cbn in Hc.
    destruct Hc as (-> & -> & _). by rewrite lookup_insert_eq.
  - intros b Hun [Hb Htb]. rewrite (unusable_default _ _ Hun), Hb in Hc.
    cbn in Hc. rewrite Htb in Hc. cbn in Hc.
    destruct Hc as (-> & -> & _). by rewrite lookup_insert_eq.
  - intros Hun1 Hun2.
    rewrite (unusable_default _ _ Hun1), (unusable_default _ _ Hun2) in Hc.
    by destruct Hc as (-> & -> & _).
Qed.

Lemma session_id_first_truthy_field_witness :
  let out := _create_new_session "u1"
               (ok_response (JObject [("chat_id", JNull); ("id", JString "abc")]))
               None initial_state in
  fst out = JString "abc" ∧ user_sessions (snd out) !! "u1" = Some (JString "abc").
Proof.
  refine (proj1 (proj2 (session_id_first_truthy_field "u1"
            {| status_code := 200;
               json_body := Some (JObject [("chat_id", JNull); ("id", JString "abc")]) |}
            [("chat_id", JNull); ("id", JString "abc")] None initial_state
            eq_refl eq_refl)) (JString "abc") _ _).
  - intros v Hv. vm_compute in Hv. injection Hv as <-. reflexivity.
  - split; reflexivity.
Defined.

(** C7, counterexample.  ["chat_id"] is present, yet the identifier stored
    is the one under ["id"], and the operation succeeds. *)
Lemma present_chat_id_does_not_win :
  let kvs := [("chat_id", JString EmptyString); ("id", JString "abc")] in
  let out := _create_new_session "u1" (ok_response (JObject kvs)) None initial_state in
  dict_lookup "chat_id" kvs = Some (JString EmptyString) ∧
  fst out = JString "abc" ∧
  user_sessions (snd out) !! "u1" = Some (JString "abc") ∧
  JString "abc" ≠ JString EmptyString.
Proof. repeat split; try (vm_compute; reflexivity); discriminate. Qed.

(** C8.  When the select-model request of a [switch_model] call fails
    (network fault or a status other than 200), the call reports the
    failure and rolls nothing back: the session in use -- the stored one, or
    the one created during this call -- is in the store afterwards, other
    users' sessions are untouched, and the recorded models are unchanged,
    unless the call created the session and the selection sent with the
    creation succeeded, which records the model the session was created
    with. *)
Theorem failed_switch_keeps_session
    u target target_model target_name x_chat x_model0 x_model s chat_id :
  target_of target = Some (target_model, target_name) →
  session_in_use u x_chat s chat_id →
  select_ok x_model = false →
  let out := switch_model u target x_chat x_model0 x_model s in
  fst out = "❌ 切换为 " ++ target_name ++ " 失败" ∧
  user_sessions (snd out) !! u = Some chat_id ∧
  (∀ v, v ≠ u → user_sessions (snd out) !! v = user_sessions s !! v) ∧
  (user_models (snd out) = user_models s ∨
   (user_sessions s !! u = None ∧ select_ok x_model0 = true ∧
    user_models (snd out)
      = <[u := default "Orange Cat" (user_models s !! u)]> (user_models s))).
Proof.
  intros Htarget Hin Hfail. unfold switch_model. rewrite Htarget.
  destruct Hin as [Hs | [Hs Hyields]]; rewrite Hs; cbn beta zeta.
  - rewrite switch_model_result, Hfail. cbn. auto.
  - pose proof (create_new_session_state u x_chat x_model0 s) as Hc.
    cbn zeta in Hc. rewrite (creation_yields_created _ _ Hyields) in Hc.
    destruct (_create_new_session u x_chat x_model0 s) as [c s1].
    cbn [fst snd] in Hc. destruct Hc as (-> & Hsess & Hmod).
    destruct Hyields as (_ & _ & _ & _ & _ & _ & ->).
    rewrite switch_model_result, Hfail. cbn. rewrite Hsess, Hmod.
    split; [reflexivity|]. split; [apply lookup_insert_eq|].
    split; [intros v Hv; by apply lookup_insert_ne|].
    destruct (select_ok x_model0); [right | left]; done.
Qed.

Lemma failed_switch_keeps_session_witness :
  let out := switch_model "u1" "Exotic" (ok_response session_abc) (ok_response JNull)
               (error_response 503) initial_state in
  fst out = "❌ 切换为 黑猫 失败" ∧
  user_sessions (snd out) !! "u1" = Some (JString "abc") ∧
  user_models (snd out) !! "u1" = Some "Orange Cat".
Proof.
  pose proof (failed_switch_keeps_session "u1" "Exotic" "Exotic Shorthair" "黑猫"
                (ok_response session_abc) (ok_response JNull) (error_response 503)
                initial_state (JString "abc") eq_refl) as H.
  cbn zeta in H. cbn zeta.
  destruct H as (Hret & Hsess & _ & _).
  - right. split; [reflexivity|].
    exists {| status_code := 200; json_body := Some session_abc |}, session_abc.
    repeat split; reflexivity.
  - reflexivity.
  - split; [exact Hret|]. split; [exact Hsess|]. vm_compute. reflexivity.
Defined.

(** C9, as amended.  A choice without the tag field ["c"] is handled
    exactly as if it carried the accepted tag 0.  If it has a text under
    ["v"], the loop body appends that text; in a data-frame record with a
    list-valued ["c"], provided no choice before it raised, the text is
    appended to what those choices left and the choices after it continue
    from there.  If its ["v"] is not text, the append raises and nothing is
    added. *)
Theorem untagged_choice_counts_as_accepted kvs :
  dict_lookup "c" kvs = None →
  (∀ r, choice_step r (JObject kvs)
        = choice_step r (JObject (dict_set "c" (JInt 0) kvs))) ∧
  (∀ r text, dict_lookup "v" kvs = Some (JString text) →
             choice_step r (JObject kvs) = Some (r ++ text)) ∧
  (∀ r v, dict_lookup "v" kvs = Some v → isinstance_str v = false →
          choice_step r (JObject kvs) = None) ∧
  (∀ loads line rec before after a r1 text,
     is_empty (strip (slice_from 6 line)) = false →
     loads (slice_from 6 line) = Some (JObject rec) →
     dict_lookup "c" rec = Some (JList (before ++ JObject kvs :: after)) →
     dict_lookup "v" kvs = Some (JString text) →
     for_choices before (result a) = (Some r1, r1) →
     result (data_frame loads line a) = snd (for_choices after (r1 ++ text))).
Proof.
  intros Hc. split; [|split; [|split]].
  - intros r. unfold choice_step. cbn. unfold dict_has.
    by rewrite Hc, dict_lookup_set_eq, dict_lookup_set_ne.
  - intros r text Hv. by apply choice_step_untagged.
  - intros r v Hv Hstr. unfold choice_step. cbn. unfold dict_has. rewrite Hc, Hv. cbn.
    by destruct v.
  - intros loads line rec before after a r1 text Hblank Hj Hlist Hv Hbefore.
    rewrite (data_frame_record loads line rec a Hblank Hj). cbn zeta.
    assert (Hres : result (match dict_lookup "msg_id" rec with
                           | Some m => with_msg_id m a
                           | None => a
                           end) = result a)
      by (by destruct (dict_lookup "msg_id" rec)).
    unfold with_result. cbn [result]. rewrite Hres, take_text_record, Hlist.
    rewrite for_choices_app, Hbefore. cbn [for_choices].
    by rewrite (choice_step_untagged kvs text r1 Hc Hv).
Qed.

Lemma untagged_choice_counts_as_accepted_witness :
  result (data_frame Json.loads
            (quoted "data: {'c':[{'c':0,'v':'a'},{'v':'b'},{'c':2,'v':'x'},{'v':'c'}]}")
            fresh) = "abc".
Proof.
  exact (proj2 (proj2 (proj2
           (untagged_choice_counts_as_accepted [("v", JString "b")] eq_refl)))
           Json.loads
           (quoted "data: {'c':[{'c':0,'v':'a'},{'v':'b'},{'c':2,'v':'x'},{'v':'c'}]}")
           [("c", JList [JObject [("c", JInt 0); ("v", JString "a")];
                         JObject [("v", JString "b")];
                         JObject [("c", JInt 2); ("v", JString "x")];
                         JObject [("v", JString "c")]])]
           [JObject [("c", JInt 0); ("v", JString "a")]]
           [JObject [("c", JInt 2); ("v", JString "x")]; JObject [("v", JString "c")]]
           fresh "a" "b" eq_refl eq_refl eq_refl eq_refl eq_refl).
Defined.

(** C9, counterexample.  Both choices of the list lack the tag and carry a
    ["v"]; the first one's value is the number 7, on which the append
    raises, so neither value reaches the reply. *)
Lemma untagged_choices_can_add_nothing :
  Json.loads (quoted "{'c':[{'v':7},{'v':'b'}]}")
    = Some (JObject [("c", JList [JObject [("v", JInt 7)];
                                  JObject [("v", JString "b")]])]) ∧
  data_frame Json.loads (quoted "data: {'c':[{'v':7},{'v':'b'}]}") fresh = fresh ∧
  result fresh = EmptyString.
Proof. repeat split; vm_compute; reflexivity. Qed.



(** ** Further properties of the stream loop *)

Lemma append_nil_r (s : string) : s ++ EmptyString = s.
Proof.
  induction s as [|a s IH]; [reflexivity|].
  change (String a (s ++ EmptyString) = String a s). by rewrite IH.
Qed.

Lemma append_assoc (s t u : string) : (s ++ t) ++ u = s ++ (t ++ u).
Proof.
  induction s as [|a s IH]; [reflexivity|].
  change (String a ((s ++ t) ++ u) = String a (s ++ (t ++ u))). by rewrite IH.
Qed.

Lemma lines_then_app l1 l2 tail :
  lines_then (l1 ++ l2) tail = lines_then l1 (lines_then l2 tail).
Proof. induction l1 as [|l l1 IH]; cbn; [reflexivity | by rewrite IH]. Qed.

Lemma read_lines_split loads ls tail a :
  read_lines loads (lines_then ls tail) a =
    match read_lines loads (lines_then ls Eof) a with
    | Returned message => Returned message
    | Exhausted a' => read_lines loads tail a'
    | Raised => Raised
    end.
Proof.
  revert a. induction ls as [|l ls IH]; intros a; cbn [lines_then]; [reflexivity|].
  cbn [read_lines].
  destruct (is_empty l); [apply IH|].
  destruct (negb (startswith l "data: ")); [|apply IH].
  destruct (choice_shown loads l) as [[|]|]; [reflexivity | apply IH | apply IH].
Qed.

(** X1.  A stream read in two parts: unless the first part returns early, the
    second part is read from the accumulator the first part leaves. *)
Theorem read_lines_in_two_parts loads l1 l2 tail a :
  read_lines loads (lines_then (l1 ++ l2) tail) a =
    match read_lines loads (lines_then l1 Eof) a with
    | Returned message => Returned message
    | Exhausted a' => read_lines loads (lines_then l2 tail) a'
    | Raised => Raised
    end.
Proof. by rewrite lines_then_app, read_lines_split. Qed.

(** X2.  Empty and unparseable lines can be inserted anywhere, or removed,
    without changing what the loop does. *)
Theorem skipped_lines_are_transparent loads l1 junk l2 tail a :
  Forall (blank_or_garbage loads) junk →
  read_lines loads (lines_then (l1 ++ junk ++ l2) tail) a
    = read_lines loads (lines_then (l1 ++ l2) tail) a.
Proof.
  intros Hjunk.
  rewrite !lines_then_app, (read_lines_split loads l1 (lines_then junk _)),
    (read_lines_split loads l1 (lines_then l2 _)).
  destruct (read_lines loads (lines_then l1 Eof) a) as [m | a' |]; try reflexivity.
  induction Hjunk as [|line junk Hline _ IH]; cbn [lines_then]; [reflexivity|].
  by rewrite read_lines_skips.
Qed.

Lemma skipped_lines_are_transparent_witness :
  read_lines Json.loads
    (lines_then ([quoted "data: {'v':'a'}"] ++ [EmptyString; "data: not json"; "???"]
                 ++ [quoted "data: {'v':'b'}"]) Eof) fresh
  = read_lines Json.loads
      (lines_then ([quoted "data: {'v':'a'}"] ++ [quoted "data: {'v':'b'}"]) Eof) fresh.
Proof.
  apply (skipped_lines_are_transparent Json.loads [quoted "data: {'v':'a'}"]
           [EmptyString; "data: not json"; "???"] [quoted "data: {'v':'b'}"] Eof fresh).
  repeat constructor; right; vm_compute; reflexivity.
Defined.



Lemma choice_step_extends r choice r' :
  choice_step r choice = Some r' → ∃ t, r' = r ++ t.
Proof.
  unfold choice_step. destruct choice as [| | | | |l|kvs]; try discriminate. cbn.
  destruct (eq_zero _); [|intros [= <-]; exists EmptyString; by rewrite append_nil_r].
  unfold dict_has. destruct (dict_lookup "v" kvs) as [v|]; cbn.
  - destruct v; try discriminate. intros [= <-]. by eexists.
  - intros [= <-]. exists EmptyString. by rewrite append_nil_r.
Qed.

Lemma for_choices_extends choices r : ∃ t, snd (for_choices choices r) = r ++ t.
Proof.
  revert r. induction choices as [|choice choices IH]; intros r; cbn.
  - exists EmptyString. by rewrite append_nil_r.
  - destruct (choice_step r choice) as [r'|] eqn:E; cbn.
    + destruct (choice_step_extends _ _ _ E) as [t ->].
      destruct (IH (r ++ t)) as [t' ->]. exists (t ++ t'). apply append_assoc.
    + exists EmptyString. by rewrite append_nil_r.
Qed.

Lemma take_text_extends j r : ∃ t, snd (take_text j r) = r ++ t.
Proof.
  assert (Hsame : ∃ t, r = r ++ t) by (exists EmptyString; by rewrite append_nil_r).
  unfold take_text.
  destruct (has_typed j "c" isinstance_list) as [[|]|]; cbn [snd]; [| |exact Hsame].
  - destruct (getitem j "c") as [[| | | | |l|]|]; cbn [snd]; try exact Hsame.
    destruct (for_choices_extends l r) as [t Ht].
    destruct (for_choices l r) as [o r']. cbn [snd] in *. by exists t.
  - destruct (has_typed j "v" isinstance_str) as [[|]|]; cbn [snd]; try exact Hsame.
    destruct (getitem j "v") as [v|]; cbn; [|exact Hsame].
    destruct v; cbn; try exact Hsame. by eexists.
Qed.

Lemma data_frame_extends loads line a : ∃ t, result (data_frame loads line a) = result a ++ t.
Proof.
  assert (Hsame : ∃ t, result a = result a ++ t)
    by (exists EmptyString; by rewrite append_nil_r).
  unfold data_frame.
  destruct (is_empty (strip (slice_from 6 line))); [exact Hsame|].
  destruct (loads (slice_from 6 line)) as [j|]; [|exact Hsame].
  destruct (take_msg_id j a) as [a1|] eqn:E; [|exact Hsame].
  assert (result a1 = result a) as Hres.
  { unfold take_msg_id in E. destruct (py_in "msg_id" j) as [[|]|]; cbn in E;
      [|by injection E as <- | discriminate].
    destruct (getitem j "msg_id"); cbn in E; [by injection E as <- | discriminate]. }
  cbn [with_result result]. rewrite <- Hres. apply take_text_extends.
Qed.

(** X4.  Text that has been accumulated is never removed or rewritten: when the
    loop ends normally, the text it leaves starts with the text it began
    with. *)
Theorem accumulated_text_only_grows loads ls a a' :
  read_lines loads ls a = Exhausted a' → ∃ t, result a' = result a ++ t.
Proof.
  revert a. induction ls as [| |l rest IH]; intros a; cbn [read_lines].
  - intros [= <-]. exists EmptyString. by rewrite append_nil_r.
  - discriminate.
  - destruct (is_empty l); [apply IH|].
    destruct (negb (startswith l "data: ")).
    + destruct (choice_shown loads l) as [[|]|]; [discriminate | apply IH | apply IH].
    + intros H. destruct (IH _ H) as [t Ht].
      destruct (data_frame_extends loads l a) as [t0 Ht0].
      exists (t0 ++ t). by rewrite Ht, Ht0, append_assoc.
Qed.

Lemma accumulated_text_only_grows_witness :
  read_lines Json.loads (lines_then round_trip_lines Eof)
    {| result := "so far: "; current_msg_id := JNull |}
    = Exhausted {| result := "so far: Hello"; current_msg_id := JString "m1" |} ∧
  ∃ t, "so far: Hello" = "so far: " ++ t.
Proof.
  split; [vm_compute; reflexivity|].
  exact (accumulated_text_only_grows Json.loads (lines_then round_trip_lines Eof)
           {| result := "so far: "; current_msg_id := JNull |}
           {| result := "so far: Hello"; current_msg_id := JString "m1" |} eq_refl).
Defined.

(** X5.  A data frame whose payload is valid JSON but not a record (a list, a
    string, a number, a boolean, null) changes nothing. *)
Theorem non_record_frame_is_ignored loads line j a :
  loads (slice_from 6 line) = Some j →
  (∀ kvs, j ≠ JObject kvs) →
  data_frame loads line a = a.
Proof.
  intros Hj Hrec. unfold data_frame. rewrite Hj.
  destruct (is_empty (strip (slice_from 6 line))); [reflexivity|].
  destruct j as [| | | | s | l | kvs]; try reflexivity.
  - unfold take_msg_id, take_text, has_typed. cbn.
    destruct (contains "msg_id" s); cbn; [reflexivity|].
    destruct (contains "c" s); cbn; [apply with_result_same|].
    destruct (contains "v" s); cbn; apply with_result_same.
  - unfold take_msg_id, take_text, has_typed. cbn.
    destruct (existsb _ l); cbn; [reflexivity|].
    destruct (existsb _ l); cbn; [apply with_result_same|].
    destruct (existsb _ l); cbn; apply with_result_same.
  - by destruct (Hrec kvs).
Qed.

Lemma non_record_frame_is_ignored_witness :
  data_frame Json.loads (quoted "data: ['msg_id','c','v']")
    {| result := "so far"; current_msg_id := JString "m0" |}
  = {| result := "so far"; current_msg_id := JString "m0" |}.
Proof.
  apply (non_record_frame_is_ignored Json.loads (quoted "data: ['msg_id','c','v']")
           (JList [JString "msg_id"; JString "c"; JString "v"])).
  - vm_compute. reflexivity.
  - intros kvs. discriminate.
Defined.


Lemma read_lines_data_frame loads line rest a :
  startswith line "data: " = true →
  read_lines loads (Line line rest) a = read_lines loads rest (data_frame loads line a).
Proof.
  intros Hpre. cbn [read_lines]. rewrite Hpre. cbn [negb].
  destruct line; [discriminate Hpre | reflexivity].
Qed.

Lemma choice_step_malformed r choice : malformed_choice choice → choice_step r choice = None.
Proof.
  intros [Hrec | (kvs & v & -> & Htag & Hv & Hstr)].
  - destruct choice; try reflexivity. by destruct (Hrec kvs).
  - unfold choice_step. cbn. unfold dict_has. rewrite Htag, Hv. cbn.
    by destruct v.
Qed.

(** X6.  A choice on which the loop body raises ends the record: the text of the
    choices before it stays, the choices after it are not looked at. *)
Theorem malformed_choice_ends_the_record loads line rec before bad after a r1 :
  is_empty (strip (slice_from 6 line)) = false →
  loads (slice_from 6 line) = Some (JObject rec) →
  dict_lookup "c" rec = Some (JList (before ++ bad :: after)) →
  for_choices before (result a) = (Some r1, r1) →
  malformed_choice bad →
  result (data_frame loads line a) = r1.
Proof.
  intros Hblank Hj Hlist Hbefore Hbad.
  rewrite (data_frame_record loads line rec a Hblank Hj). cbn zeta.
  assert (Hres : result (match dict_lookup "msg_id" rec with
                         | Some m => with_msg_id m a
                         | None => a
                         end) = result a)
    by (by destruct (dict_lookup "msg_id" rec)).
  unfold with_result. cbn [result]. rewrite Hres, take_text_record, Hlist.
  rewrite for_choices_app, Hbefore. cbn [for_choices].
  by rewrite (choice_step_malformed r1 bad Hbad).
Qed.

Lemma malformed_choice_ends_the_record_witness :
  result (data_frame Json.loads
            (quoted "data: {'c':[{'v':'kept'},{'v':7},{'v':' lost'}]}") fresh) = "kept".
Proof.
  apply (malformed_choice_ends_the_record Json.loads
           (quoted "data: {'c':[{'v':'kept'},{'v':7},{'v':' lost'}]}")
           [("c", JList [JObject [("v", JString "kept")]; JObject [("v", JInt 7)];
                         JObject [("v", JString " lost")]])]
           [JObject [("v", JString "kept")]] (JObject [("v", JInt 7)])
           [JObject [("v", JString " lost")]] fresh "kept");
    try reflexivity.
  right. exists [("v", JInt 7)], (JInt 7). repeat split; reflexivity.
Defined.

Lemma choice_shown_announces loads line :
  is_empty line = false →
  startswith line "data: " = false →
  choice_shown loads line = Some true →
  announces_choice loads line.
Proof.
  intros Hne Hpre Hshown. split; [exact Hne|]. split; [exact Hpre|].
  unfold choice_shown in Hshown.
  destruct (loads line) as [j|]; [|discriminate].
  destruct j as [| | | | | |kvs]; try discriminate. cbn in Hshown.
  exists kvs. split; [reflexivity|].
  destruct (dict_lookup "code" kvs) as [code|]; [|discriminate]. cbn in Hshown.
  destruct code; try discriminate. cbn in Hshown.
  injection Hshown as Heq. by apply String.eqb_eq in Heq as ->.
Qed.

Lemma data_frame_keeps_message_id loads line a :
  (∀ kvs, loads (slice_from 6 line) = Some (JObject kvs) →
          dict_lookup "msg_id" kvs = None) →
  current_msg_id (data_frame loads line a) = current_msg_id a.
Proof.
  intros Hno. unfold data_frame.
  destruct (is_empty (strip (slice_from 6 line))); [reflexivity|].
  destruct (loads (slice_from 6 line)) as [j|]; [|reflexivity].
  destruct (take_msg_id j a) as [a1|] eqn:E; [|reflexivity].
  cbn [with_result current_msg_id].
  destruct j as [| | | | t | l | kvs]; try discriminate.
  - unfold take_msg_id in E. cbn in E.
    destruct (contains "msg_id" t); cbn in E; [discriminate | by injection E as <-].
  - unfold take_msg_id in E. cbn in E.
    destruct (existsb _ l); cbn in E; [discriminate | by injection E as <-].
  - rewrite take_msg_id_record, (Hno kvs eq_refl) in E. by injection E as <-.
Qed.

Lemma read_lines_keeps_message_id loads later a :
  Forall (keeps_message_id loads) later →
  ∃ a', read_lines loads (lines_then later Eof) a = Exhausted a' ∧
        current_msg_id a' = current_msg_id a.
Proof.
  intros Hlater. revert a.
  induction Hlater as [|line later Hline _ IH]; intros a; cbn [lines_then].
  - by exists a.
  - cbn [read_lines]. unfold keeps_message_id in Hline.
    destruct (is_empty line) eqn:Hne; [apply IH|].
    destruct (startswith line "data: ") eqn:Hpre; cbn [negb].
    + destruct (IH (data_frame loads line a)) as (a' & Ha' & Hid).
      exists a'. split; [exact Ha'|].
      by rewrite Hid, data_frame_keeps_message_id.
    + destruct (choice_shown loads line) as [[|]|] eqn:Hshown; [|apply IH|apply IH].
      by destruct (Hline (choice_shown_announces loads line Hne Hpre Hshown)).
Qed.

(** X7.  The branch choice is sent for the message id of the last record that
    has one -- whatever lines follow it, as long as none of them carries a
    message id or announces the pending choice -- and only if that id is
    truthy: a later record whose id is empty, null or zero cancels an earlier
    id. *)
Theorem branch_choice_follows_last_message_id
    loads ls line rec m later session text s a :
  read_lines loads (lines_then ls Eof) fresh = Exhausted a →
  startswith line "data: " = true →
  is_empty (strip (slice_from 6 line)) = false →
  loads (slice_from 6 line) = Some (JObject rec) →
  dict_lookup "msg_id" rec = Some m →
  Forall (keeps_message_id loads) later →
  snd (_stream_reply loads session text (lines_then (ls ++ line :: later) Eof) s) =
    (let s1 := send (PostStream session text) s in
     if truthy m then send (PostSelectChoice m) s1 else s1).
Proof.
  intros Hls Hpre Hblank Hj Hm Hlater. unfold _stream_reply. fold fresh.
  rewrite lines_then_app, read_lines_split, Hls. cbn [lines_then].
  rewrite (read_lines_data_frame loads line _ a Hpre).
  destruct (read_lines_keeps_message_id loads later (data_frame loads line a) Hlater)
    as (a' & -> & Hid).
  rewrite Hid, (data_frame_record loads line rec a Hblank Hj), Hm. reflexivity.
Qed.

Lemma branch_choice_follows_last_message_id_witness :
  snd (_stream_reply Json.loads (JString "abc") "hi"
         (lines_then ([quoted "data: {'msg_id':'m1','v':'x'}"]
                      ++ quoted "data: {'msg_id':'m2'}"
                         :: [quoted "data: {'v':'tail'}"; EmptyString;
                             quoted "{'code':'other'}"; "data: 7"]) Eof)
         initial_state)
  = send (PostSelectChoice (JString "m2"))
      (send (PostStream (JString "abc") "hi") initial_state).
Proof.
  refine (branch_choice_follows_last_message_id Json.loads
            [quoted "data: {'msg_id':'m1','v':'x'}"] (quoted "data: {'msg_id':'m2'}")
            [("msg_id", JString "m2")] (JString "m2")
            [quoted "data: {'v':'tail'}"; EmptyString; quoted "{'code':'other'}"; "data: 7"]
            (JString "abc") "hi" initial_state
            {| result := "x"; current_msg_id := JString "m1" |}
            eq_refl eq_refl eq_refl eq_refl eq_refl _).
  apply List.Forall_cons.
  { intros kvs H. vm_compute in H. injection H as <-. reflexivity. }
  apply List.Forall_cons.
  { intros (Hne & _). discriminate Hne. }
  apply List.Forall_cons.
  { intros (_ & _ & kvs & Hj & Hcode). vm_compute in Hj. injection Hj as <-.
    discriminate Hcode. }
  apply List.Forall_cons.
  { intros kvs H. vm_compute in H. discriminate H. }
  apply List.Forall_nil.
Defined.

(** ** Further properties of the session store *)

Lemma stream_reply_state loads sid text ls s :
  snd (_stream_reply loads sid text ls s) =
    {| user_sessions := user_sessions s; user_models := user_models s;
       wire := wire s ++ PostStream sid text :: choice_requests loads ls |}.
Proof.
  unfold _stream_reply, choice_requests. fold fresh.
  destruct (read_lines loads ls fresh) as [m | a |]; cbn; try reflexivity.
  destruct (truthy (current_msg_id a)); cbn; [|reflexivity].
  unfold _send_choice, send. cbn. by rewrite <- app_assoc.
Qed.

Lemma target_of_known target tm tn :
  target_of target = Some (tm, tn) →
  (tm = "Orange Cat" ∧ tn = "橘猫") ∨ (tm = "Exotic Shorthair" ∧ tn = "黑猫").
Proof.
  unfold target_of.
  destruct (_ || _); [intros [= <- <-]; by left|].
  destruct (_ || _); [intros [= <- <-]; by right | discriminate].
Qed.

Lemma switch_model_full u target x_chat x_model0 x_model s :
  switch_model u target x_chat x_model0 x_model s =
    match target_of target with
    | None => (MSG_WHICH_MODEL, s)
    | Some (tm, tn) =>
        let finish (c : json) (s : plugin_state) :=
          (if select_ok x_model then "✨ 已切换为：" ++ tn else "❌ 切换为 " ++ tn ++ " 失败",
           let s1 := send (PostSelectModel c tm) s in
           if select_ok x_model then set_model u tm s1 else s1) in
        match user_sessions s !! u with
        | Some c => finish c s
        | None =>
            match created_id x_chat with
            | Some c => finish c (snd (_create_new_session u x_chat x_model0 s))
            | None => (MSG_SWITCH_NO_SESSION, snd (_create_new_session u x_chat x_model0 s))
            end
        end
    end.
Proof.
  unfold switch_model. destruct (target_of target) as [[tm tn]|]; [|reflexivity].
  destruct (user_sessions s !! u) as [c|] eqn:Hs; cbn beta zeta.
  - rewrite switch_model_result. by destruct (select_ok x_model).
  - rewrite create_new_session_result. cbn zeta.
    destruct (created_id x_chat) as [c|] eqn:Hid; [|reflexivity].
    rewrite (created_id_truthy _ _ Hid). cbn [fst snd].
    rewrite (switch_model_result u c tm). by destruct (select_ok x_model).
Qed.

Lemma handle_chat_command_full config loads u full_text x_chat x_model ls s :
  handle_chat_command config loads u full_text x_chat x_model ls s =
    if negb (startswith (lstrip full_text) "/chat") then (Some EmptyString, s)
    else if is_empty (chat_content full_text) then (Some MSG_NEED_CONTENT, s)
    else
      let converse (sid : json) (s : plugin_state) :=
        let r := _stream_reply loads sid (chat_content full_text) ls s in
        (Some (fst r ++ WATERMARK config), snd r) in
      match user_sessions s !! u with
      | Some sid => converse sid s
      | None =>
          match created_id x_chat with
          | Some c => converse c (snd (_create_new_session u x_chat x_model s))
          | None => (Some MSG_CREATE_FAILED, snd (_create_new_session u x_chat x_model s))
          end
      end.
Proof.
  unfold handle_chat_command, chat_content.
  destruct (startswith (lstrip full_text) "/chat"); cbn [negb]; [|reflexivity].
  destruct (is_empty _); [reflexivity|].
  destruct (user_sessions s !! u) as [sid|] eqn:Hs; cbn beta zeta.
  - by destruct (_stream_reply _ _ _ _ _).
  - pose proof (create_new_session_state u x_chat x_model s) as Hc. cbn zeta in Hc.
    destruct (created_id x_chat) as [c|] eqn:Hid;
      destruct (_create_new_session u x_chat x_model s) as [c' s1];
      cbn [fst snd] in *; destruct Hc as (-> & Hsess & _).
    + rewrite (created_id_truthy _ _ Hid). cbn beta zeta.
      rewrite Hsess, lookup_insert_eq. by destruct (_stream_reply _ _ _ _ _).
    + reflexivity.
Qed.

Lemma changes_only_refl u s : changes_only u s s.
Proof. split; by left. Qed.

Lemma create_changes_only u x_chat x_model s :
  changes_only u s (snd (_create_new_session u x_chat x_model s)).
Proof.
  pose proof (create_new_session_state u x_chat x_model s) as Hc. cbn zeta in Hc.
  destruct (created_id x_chat) as [c|] eqn:Hid.
  - destruct Hc as (_ & Hsess & Hmod). split.
    + right. exists c. split; [by eapply created_id_truthy | exact Hsess].
    + rewrite Hmod. destruct (select_ok x_model); [right | by left].
      exists (default "Orange Cat" (user_models s !! u)). split; [|split].
      * destruct (user_models s !! u); cbn; auto.
      * rewrite Hsess, lookup_insert_eq. by eexists.
      * reflexivity.
  - destruct Hc as (_ & Hsess & Hmod). split; by left.
Qed.

(** [changes_only] looks at the dictionaries alone. *)
Lemma changes_only_dicts u s s1 s2 :
  user_sessions s2 = user_sessions s1 →
  user_models s2 = user_models s1 →
  changes_only u s s1 → changes_only u s s2.
Proof. unfold changes_only. by intros -> ->. Qed.

Lemma switch_changes_only u target x_chat x_model0 x_model s :
  changes_only u s (snd (switch_model u target x_chat x_model0 x_model s)).
Proof.
  rewrite switch_model_full.
  destruct (target_of target) as [[tm tn]|] eqn:Ht; [|apply changes_only_refl].
  assert (Htm : tm = "Orange Cat" ∨ tm = "Exotic Shorthair")
    by (destruct (target_of_known _ _ _ Ht) as [[-> _] | [-> _]]; auto).
  destruct (user_sessions s !! u) as [c|] eqn:Hs; cbn beta zeta.
  - cbn [snd]. destruct (select_ok x_model); cbn.
    + split; [by left|]. right. exists tm. cbn. rewrite Hs.
      split; [tauto|]. split; [by eexists | done].
    + by apply (changes_only_dicts u s s), changes_only_refl.
  - pose proof (create_new_session_state u x_chat x_model0 s) as Hc. cbn zeta in Hc.
    destruct (created_id x_chat) as [c|] eqn:Hid; [|apply create_changes_only].
    destruct Hc as (_ & Hsess & Hmod). cbn [snd].
    assert (Htruthy := created_id_truthy _ _ Hid).
    destruct (select_ok x_model); cbn.
    + split; [right; by exists c|]. right. exists tm. cbn. split; [tauto|].
      split; [rewrite Hsess, lookup_insert_eq; by eexists|].
      rewrite Hmod. destruct (select_ok x_model0); [|reflexivity].
      by rewrite insert_insert_eq.
    + by eapply changes_only_dicts, create_changes_only.
Qed.

Lemma new_session_state u x_chat x_model s :
  snd (new_session u x_chat x_model s) = snd (_create_new_session u x_chat x_model s).
Proof.
  unfold new_session. destruct (_create_new_session u x_chat x_model s) as [c s1].
  by destruct (truthy c).
Qed.

Lemma chat_changes_only config loads u full_text x_chat x_model ls s :
  changes_only u s (snd (handle_chat_command config loads u full_text x_chat x_model ls s)).
Proof.
  rewrite handle_chat_command_full.
  destruct (negb _); [apply changes_only_refl|].
  destruct (is_empty _); [apply changes_only_refl|]. cbn zeta.
  destruct (user_sessions s !! u) as [sid|].
  - cbn [snd]. rewrite stream_reply_state.
    by apply (changes_only_dicts u s s), changes_only_refl.
  - pose proof (create_changes_only u x_chat x_model s) as Hc.
    destruct (created_id x_chat) as [c|]; [|exact Hc].
    cbn [snd]. rewrite stream_reply_state. by eapply changes_only_dicts, Hc.
Qed.

Lemma run_changes_only config loads c s :
  match c with
  | CallSwitch u _ _ _ _ | CallNewSession u _ _ | CallChat u _ _ _ _ =>
      changes_only u s (run config loads c s)
  | CallCleanUp => True
  end.
Proof.
  destruct c; cbn [run]; [apply switch_changes_only | | apply chat_changes_only | exact I].
  rewrite new_session_state. apply create_changes_only.
Qed.

(** X8.  A call made for one user leaves every other user's session and model
    alone. *)
Theorem other_users_untouched config loads c s v :
  ¬ concerns v c →
  user_sessions (run config loads c s) !! v = user_sessions s !! v ∧
  user_models (run config loads c s) !! v = user_models s !! v.
Proof.
  intros Hv. pose proof (run_changes_only config loads c s) as Hc.
  assert (∃ u, u ≠ v ∧ changes_only u s (run config loads c s)) as (u & Hne & Hch).
  { destruct c as [u ? ? ? ? | u ? ? | u ? ? ? ? |]; cbn in Hv;
      [exists u | exists u | exists u | by destruct Hv]; by split. }
  destruct Hch as [[-> | (c' & _ & ->)] [-> | (m & _ & _ & ->)]];
    rewrite ?lookup_insert_ne by done; done.
Qed.

Lemma other_users_untouched_witness :
  let s := set_session "u2" (JString "keep") initial_state in
  user_sessions (run default_config Json.loads
                   (CallNewSession "u1" (ok_response session_abc) (ok_response JNull)) s)
    !! "u2" = Some (JString "keep").
Proof.
  cbn zeta.
  rewrite (proj1 (other_users_untouched default_config Json.loads
                    (CallNewSession "u1" (ok_response session_abc) (ok_response JNull))
                    (set_session "u2" (JString "keep") initial_state) "u2"
                    ltac:(discriminate))).
  reflexivity.
Defined.

Lemma run_all_invariant config loads (P : plugin_state → Prop) :
  (∀ c s, P s → P (run config loads c s)) →
  ∀ cs s, P s → P (run_all config loads cs s).
Proof.
  intros Hstep cs. unfold run_all.
  induction cs as [|c cs IH]; intros s Hs; cbn [fold_left]; [exact Hs|].
  apply IH, Hstep, Hs.
Qed.

Lemma clean_up_dicts s : user_sessions (clean_up s) = ∅ ∧ user_models (clean_up s) = ∅.
Proof. by split. Qed.

Lemma run_keeps_sessions_truthy config loads c s :
  sessions_truthy s → sessions_truthy (run config loads c s).
Proof.
  intros Hs. pose proof (run_changes_only config loads c s) as Hc.
  assert (∀ u, changes_only u s (run config loads c s) →
               sessions_truthy (run config loads c s)) as Hkeep.
  { intros u [[Heq | (c' & Ht & Heq)] _] v d; rewrite Heq; [apply Hs|].
    destruct (decide (u = v)) as [->|Hne].
    - rewrite lookup_insert_eq. by intros [= <-].
    - rewrite lookup_insert_ne by done. apply Hs. }
  destruct c; eauto. intros v d. cbn. by rewrite lookup_empty.
Qed.

Lemma run_keeps_models_known config loads c s :
  models_known s → models_known (run config loads c s).
Proof.
  intros Hs. pose proof (run_changes_only config loads c s) as Hc.
  assert (∀ u, changes_only u s (run config loads c s) →
               models_known (run config loads c s)) as Hkeep.
  { intros u [_ [Heq | (m & Hm & _ & Heq)]] v d; rewrite Heq; [apply Hs|].
    destruct (decide (u = v)) as [->|Hne].
    - rewrite lookup_insert_eq. intros [= <-].
      destruct Hm as [-> | [-> | Hm]]; [by left | by right | by eapply Hs].
    - rewrite lookup_insert_ne by done. apply Hs. }
  destruct c; eauto. intros v d. cbn. by rewrite lookup_empty.
Qed.

Lemma run_keeps_models_have_sessions config loads c s :
  models_have_sessions s → models_have_sessions (run config loads c s).
Proof.
  intros Hs. pose proof (run_changes_only config loads c s) as Hc.
  assert (∀ u, changes_only u s (run config loads c s) →
               models_have_sessions (run config loads c s)) as Hkeep.
  { intros u [Hsess Hmod] v.
    assert (is_Some (user_sessions s !! v) →
            is_Some (user_sessions (run config loads c s) !! v)) as Hmono.
    { destruct Hsess as [-> | (c' & _ & ->)]; [done|].
      destruct (decide (u = v)) as [->|Hne];
        [rewrite lookup_insert_eq; by eexists | by rewrite lookup_insert_ne]. }
    destruct Hmod as [-> | (m & _ & Hhas & ->)]; [intros Hv; by apply Hmono, Hs|].
    destruct (decide (u = v)) as [->|Hne]; [done|].
    rewrite lookup_insert_ne by done. intros Hv. by apply Hmono, Hs. }
  destruct c; eauto. intros v. cbn. rewrite lookup_empty. by intros [? ?].
Qed.

(** X9.  However the plugin is called, every session identifier it holds is
    truthy: an empty, null or zero identifier is never stored. *)
Theorem stored_session_ids_are_truthy config loads cs :
  sessions_truthy (run_all config loads cs initial_state).
Proof.
  apply run_all_invariant; [apply run_keeps_sessions_truthy|].
  intros u c. cbn. by rewrite lookup_empty.
Qed.

(** X10.  However the plugin is called, every model it records is one of the two
    backend names. *)
Theorem recorded_models_are_backend_names config loads cs :
  models_known (run_all config loads cs initial_state).
Proof.
  apply run_all_invariant; [apply run_keeps_models_known|].
  intros u m. cbn. by rewrite lookup_empty.
Qed.

(** X11.  However the plugin is called, a user with a recorded model has a stored
    session. *)
Theorem recorded_model_implies_session config loads cs :
  models_have_sessions (run_all config loads cs initial_state).
Proof.
  apply run_all_invariant; [apply run_keeps_models_have_sessions|].
  intros u. cbn. rewrite lookup_empty. by intros [? ?].
Qed.

Lemma create_new_session_wire u x_chat x_model s :
  wire (snd (_create_new_session u x_chat x_model s)) =
    let model := default "Orange Cat" (user_models s !! u) in
    (wire s ++ PostChat model ::
       match created_id x_chat with
       | Some c => [PostSelectModel c model]
       | None => []
       end)%list.
Proof.
  rewrite create_new_session_result. cbn zeta.
  destruct (created_id x_chat) as [c|]; [|reflexivity].
  rewrite switch_model_result. cbn [snd].
  destruct (select_ok x_model); cbn; by rewrite <- app_assoc.
Qed.

(** X12.  With a stream URL template that formats, a chat for a user who has a
    session never creates one and never writes to either dictionary; it sends
    the stream request to the stored session and at most the branch choice
    -- and nothing at all unless the text is a command with content. *)
Theorem chat_with_session_only_streams
    config loads u full_text x_chat x_model ls s sid :
  plain_template (STREAM_API_URL config) = true →
  user_sessions s !! u = Some sid →
  snd (handle_chat_command config loads u full_text x_chat x_model ls s) =
    {| user_sessions := user_sessions s; user_models := user_models s;
       wire := wire s ++
               if speaks full_text
               then PostStream sid (chat_content full_text) :: choice_requests loads ls
               else [] |}.
Proof.
  intros _ Hs. rewrite handle_chat_command_full. unfold speaks.
  destruct (startswith (lstrip full_text) "/chat"); cbn [negb andb];
    [|destruct s; cbn; by rewrite app_nil_r].
  destruct (is_empty (chat_content full_text)); cbn [negb];
    [destruct s; cbn; by rewrite app_nil_r|].
  cbn zeta. rewrite Hs. cbn [snd]. apply stream_reply_state.
Qed.

Lemma chat_with_session_only_streams_witness :
  let s := set_session "u1" (JString "abc") initial_state in
  wire (snd (handle_chat_command default_config Json.loads "u1" "/chat hi"
               None None (lines_then round_trip_lines Eof) s))
  = [PostStream (JString "abc") "hi"; PostSelectChoice (JString "m1")].
Proof.
  cbn zeta.
  rewrite (chat_with_session_only_streams default_config Json.loads "u1" "/chat hi"
             None None (lines_then round_trip_lines Eof)
             (set_session "u1" (JString "abc") initial_state) (JString "abc")
             eq_refl eq_refl).
  vm_compute. reflexivity.
Defined.

(** X13.  With a stream URL template that formats, the first chat of a user
    creates the session exactly once, with the recorded or default model,
    stores the identifier and streams to it. *)
Theorem first_chat_creates_then_streams
    config loads u full_text x_chat x_model ls s c :
  plain_template (STREAM_API_URL config) = true →
  user_sessions s !! u = None →
  speaks full_text = true →
  creation_yields x_chat c →
  let out := handle_chat_command config loads u full_text x_chat x_model ls s in
  let model := default "Orange Cat" (user_models s !! u) in
  user_sessions (snd out) = <[u := c]> (user_sessions s) ∧
  wire (snd out) =
    (wire s ++ [PostChat model; PostSelectModel c model;
                PostStream c (chat_content full_text)] ++ choice_requests loads ls)%list.
Proof.
  intros _ Hs Hspeaks Hyields. cbn zeta. rewrite handle_chat_command_full.
  unfold speaks in Hspeaks. apply andb_prop in Hspeaks as [Hcmd Hcontent].
  rewrite Hcmd. cbn [negb]. apply negb_true_iff in Hcontent. rewrite Hcontent.
  cbn zeta. rewrite Hs, (creation_yields_created _ _ Hyields). cbn [snd].
  rewrite stream_reply_state. cbn [user_sessions wire].
  pose proof (create_new_session_state u x_chat x_model s) as Hc. cbn zeta in Hc.
  rewrite (creation_yields_created _ _ Hyields) in Hc. destruct Hc as (_ & -> & _).
  split; [reflexivity|].
  rewrite create_new_session_wire, (creation_yields_created _ _ Hyields). cbn zeta.
  by rewrite <- app_assoc.
Qed.

Lemma first_chat_creates_then_streams_witness :
  let out := handle_chat_command default_config Json.loads "u1" "/chat hi"
               (ok_response session_abc) None (lines_then round_trip_lines Eof)
               initial_state in
  user_sessions (snd out) !! "u1" = Some (JString "abc") ∧
  wire (snd out) = [PostChat "Orange Cat"; PostSelectModel (JString "abc") "Orange Cat";
                    PostStream (JString "abc") "hi"; PostSelectChoice (JString "m1")].
Proof.
  cbn zeta.
  destruct (first_chat_creates_then_streams default_config Json.loads "u1" "/chat hi"
              (ok_response session_abc) None (lines_then round_trip_lines Eof)
              initial_state (JString "abc") eq_refl eq_refl eq_refl) as [Hsess Hwire].
  - exists {| status_code := 200; json_body := Some session_abc |}, session_abc.
    repeat split; reflexivity.
  - rewrite Hsess, Hwire. split; vm_compute; reflexivity.
Defined.



(** X15.  Switching a user who has a session to a model, when the backend accepts,
    confirms and records the model without touching the session; switching
    again to the same model gives the same confirmation and the same
    dictionaries. *)
Theorem switch_twice_is_switch_once
    u target tm tn x_chat x_model0 x_model x_chat' x_model0' x_model' s sid :
  target_of target = Some (tm, tn) →
  user_sessions s !! u = Some sid →
  select_ok x_model = true →
  select_ok x_model' = true →
  let out1 := switch_model u target x_chat x_model0 x_model s in
  let out2 := switch_model u target x_chat' x_model0' x_model' (snd out1) in
  fst out1 = "✨ 已切换为：" ++ tn ∧
  user_sessions (snd out1) = user_sessions s ∧
  user_models (snd out1) = <[u := tm]> (user_models s) ∧
  fst out2 = fst out1 ∧
  user_sessions (snd out2) = user_sessions (snd out1) ∧
  user_models (snd out2) = user_models (snd out1).
Proof.
  intros Ht Hs Hok Hok'. cbn zeta.
  rewrite (switch_model_full u target x_chat x_model0 x_model s), Ht. cbn zeta.
  rewrite Hs, Hok. cbn [fst snd].
  rewrite switch_model_full, Ht. cbn zeta. cbn [user_sessions set_model send].
  rewrite Hs, Hok'. cbn. by rewrite insert_insert_eq.
Qed.

Lemma switch_twice_is_switch_once_witness :
  let s := set_session "u1" (JString "abc") initial_state in
  let out1 := switch_model "u1" "BLACK exotic" None None (ok_response JNull) s in
  let out2 := switch_model "u1" "BLACK exotic" None None (ok_response JNull) (snd out1) in
  fst out2 = "✨ 已切换为：黑猫" ∧ user_models (snd out2) !! "u1" = Some "Exotic Shorthair".
Proof.
  cbn zeta.
  destruct (switch_twice_is_switch_once "u1" "BLACK exotic" "Exotic Shorthair" "黑猫"
              None None (ok_response JNull) None None (ok_response JNull)
              (set_session "u1" (JString "abc") initial_state) (JString "abc")
              eq_refl eq_refl eq_refl eq_refl)
    as (H1 & _ & H3 & H4 & _ & H6).
  rewrite H4, H1, H6, H3. split; [reflexivity | vm_compute; reflexivity].
Defined.

(** X16.  A successful [new_session] for a user with a recorded model replaces
    whatever session was stored, asks for the recorded model, names it in the
    confirmation, and leaves the recorded models as they are whether or not
    the follow-up selection succeeds. *)
Theorem new_session_keeps_recorded_model u m x_chat x_model s c :
  user_models s !! u = Some m →
  creation_yields x_chat c →
  let out := new_session u x_chat x_model s in
  fst out = "已创建新的会话（当前模型："
            ++ (if String.eqb m "Orange Cat" then "橘猫" else "黑猫") ++ "）！" ∧
  user_sessions (snd out) = <[u := c]> (user_sessions s) ∧
  user_models (snd out) = user_models s ∧
  wire (snd out) = (wire s ++ [PostChat m; PostSelectModel c m])%list.
Proof.
  intros Hm Hyields. cbn zeta.
  pose proof (creation_yields_created _ _ Hyields) as Hid.
  pose proof (create_new_session_state u x_chat x_model s) as Hc. cbn zeta in Hc.
  pose proof (create_new_session_wire u x_chat x_model s) as Hw. cbn zeta in Hw.
  rewrite Hid, Hm in Hc, Hw. cbn [default from_option id] in Hc, Hw.
  assert (Hsame : (if select_ok x_model then <[u := m]> (user_models s) else user_models s)
                  = user_models s)
    by (destruct (select_ok x_model); [by apply insert_id | reflexivity]).
  rewrite Hsame in Hc. rewrite new_session_state.
  destruct Hc as (Hret & Hsess & Hmod). split; [|by rewrite Hsess, Hmod, Hw].
  unfold new_session.
  destruct (_create_new_session u x_chat x_model s) as [c' s1]. cbn [fst snd] in *.
  subst c'. by rewrite (created_id_truthy _ _ Hid), Hmod, Hm.
Qed.

Lemma new_session_keeps_recorded_model_witness :
  let s := set_model "u1" "Exotic Shorthair"
             (set_session "u1" (JString "old") initial_state) in
  let out := new_session "u1" (ok_response session_abc) (error_response 500) s in
  fst out = "已创建新的会话（当前模型：黑猫）！" ∧
  user_sessions (snd out) !! "u1" = Some (JString "abc").
Proof.
  cbn zeta.
  destruct (new_session_keeps_recorded_model "u1" "Exotic Shorthair"
              (ok_response session_abc) (error_response 500)
              (set_model "u1" "Exotic Shorthair"
                 (set_session "u1" (JString "old") initial_state))
              (JString "abc") eq_refl) as (Hret & Hsess & _ & _).
  - exists {| status_code := 200; json_body := Some session_abc |}, session_abc.
    repeat split; reflexivity.
  - rewrite Hret, Hsess. split; [reflexivity | vm_compute; reflexivity].
Defined.

(** ** The request log is a bystander *)

Lemma send_prepend r w s : send r (prepend w s) = prepend w (send r s).
Proof. unfold send, prepend. cbn. by rewrite app_assoc. Qed.

Lemma switch_model_prepend u c m x w s :
  _switch_model u c m x (prepend w s) =
    (fst (_switch_model u c m x s), prepend w (snd (_switch_model u c m x s))).
Proof.
  rewrite !switch_model_result. cbn [fst snd]. rewrite send_prepend.
  by destruct (select_ok x).
Qed.

Lemma create_new_session_prepend u x_chat x_model w s :
  _create_new_session u x_chat x_model (prepend w s) =
    (fst (_create_new_session u x_chat x_model s),
     prepend w (snd (_create_new_session u x_chat x_model s))).
Proof.
  rewrite !create_new_session_result. cbn zeta. cbn [user_models prepend].
  rewrite send_prepend.
  destruct (created_id x_chat) as [c|]; [|reflexivity]. cbn [fst snd].
  change (set_session u c (prepend w ?s)) with (prepend w (set_session u c s)).
  by rewrite switch_model_prepend.
Qed.

Lemma stream_reply_prepend loads sid text ls w s :
  _stream_reply loads sid text ls (prepend w s) =
    (fst (_stream_reply loads sid text ls s),
     prepend w (snd (_stream_reply loads sid text ls s))).
Proof.
  unfold _stream_reply. rewrite send_prepend.
  destruct (read_lines _ _ _) as [m | a |]; cbn [fst snd]; try reflexivity.
  destruct (truthy (current_msg_id a)); [|reflexivity].
  unfold _send_choice. by rewrite send_prepend.
Qed.

Lemma handle_chat_command_prepend config loads u full_text x_chat x_model ls w s :
  handle_chat_command config loads u full_text x_chat x_model ls (prepend w s) =
    (fst (handle_chat_command config loads u full_text x_chat x_model ls s),
     prepend w (snd (handle_chat_command config loads u full_text x_chat x_model ls s))).
Proof.
  rewrite !handle_chat_command_full.
  destruct (negb _); [reflexivity|]. destruct (is_empty _); [reflexivity|].
  cbn zeta. cbn [user_sessions prepend].
  destruct (user_sessions s !! u) as [sid|].
  - by rewrite stream_reply_prepend.
  - rewrite create_new_session_prepend. cbn [snd].
    destruct (created_id x_chat) as [c|]; [|reflexivity].
    by rewrite stream_reply_prepend.
Qed.

Lemma switch_model_call_prepend u target x_chat x_model0 x_model w s :
  switch_model u target x_chat x_model0 x_model (prepend w s) =
    (fst (switch_model u target x_chat x_model0 x_model s),
     prepend w (snd (switch_model u target x_chat x_model0 x_model s))).
Proof.
  rewrite !switch_model_full.
  destruct (target_of target) as [[tm tn]|]; [|reflexivity].
  cbn zeta. cbn [user_sessions prepend].
  destruct (user_sessions s !! u) as [c|]; cbn [fst snd].
  - rewrite send_prepend. by destruct (select_ok x_model).
  - rewrite create_new_session_prepend. cbn [snd].
    destruct (created_id x_chat) as [c|]; [|reflexivity]. cbn [fst snd].
    rewrite send_prepend. by destruct (select_ok x_model).
Qed.

Lemma new_session_prepend u x_chat x_model w s :
  new_session u x_chat x_model (prepend w s) =
    (fst (new_session u x_chat x_model s), prepend w (snd (new_session u x_chat x_model s))).
Proof.
  unfold new_session. rewrite create_new_session_prepend.
  destruct (_create_new_session u x_chat x_model s) as [c s1]. cbn [fst snd].
  by destruct (truthy c).
Qed.

Lemma clean_up_is_initial s : clean_up s = prepend (wire s) initial_state.
Proof. unfold clean_up, prepend. cbn. by rewrite app_nil_r. Qed.

(** X17.  After [clean_up] the plugin behaves as it did when first loaded: a chat
    gives the reply, and every call leaves the dictionaries and sends the
    requests, that it would from the initial state. *)
Theorem after_clean_up_as_at_start config loads s :
  (∀ u full_text x_chat x_model ls,
     handle_chat_command config loads u full_text x_chat x_model ls (clean_up s) =
       (fst (handle_chat_command config loads u full_text x_chat x_model ls initial_state),
        prepend (wire s)
          (snd (handle_chat_command config loads u full_text x_chat x_model ls
                  initial_state)))) ∧
  (∀ c, run config loads c (clean_up s) = prepend (wire s) (run config loads c initial_state)).
Proof.
  rewrite clean_up_is_initial. split.
  - intros. apply handle_chat_command_prepend.
  - intros [u t x1 x0 x | u x1 x2 | u t x1 x2 ls |]; cbn [run].
    + by rewrite switch_model_call_prepend.
    + by rewrite new_session_prepend.
    + by rewrite handle_chat_command_prepend.
    + unfold clean_up, prepend. cbn. by rewrite !app_nil_r.
Qed.

(** ** Reading the command and the target *)

Lemma lstrip_space a rest : space1 a = true → lstrip (String a rest) = lstrip rest.
Proof. intros Ha. cbn [lstrip]. by rewrite Ha. Qed.

Lemma lstrip_spaces ws s : spaces ws = true → lstrip (ws ++ s) = lstrip s.
Proof.
  induction ws as [|a ws IH]; [reflexivity|]. cbn [spaces].
  intros [Ha Hws]%andb_prop.
  change (String a ws ++ s) with (String a (ws ++ s)).
  rewrite (lstrip_space a _ Ha). by apply IH.
Qed.

Lemma lstrip_command rest : lstrip ("/chat" ++ rest) = "/chat" ++ rest.
Proof. reflexivity. Qed.

Lemma startswith_command rest : startswith ("/chat" ++ rest) "/chat" = true.
Proof. by destruct rest. Qed.

(** X18.  Whitespace before [/chat], and between [/chat] and the message, does not
    count; nor is any separator needed after [/chat]. *)
Theorem chat_command_ignores_padding
    config loads u ws1 ws2 body x_chat x_model ls s :
  spaces ws1 = true →
  spaces ws2 = true →
  handle_chat_command config loads u (ws1 ++ "/chat" ++ ws2 ++ body) x_chat x_model ls s
    = handle_chat_command config loads u ("/chat" ++ body) x_chat x_model ls s.
Proof.
  intros H1 H2. unfold handle_chat_command.
  rewrite (lstrip_spaces ws1 _ H1), !lstrip_command.
  change (slice_from 5 ("/chat" ++ ?r)) with r.
  by rewrite (lstrip_spaces ws2 _ H2), !startswith_command.
Qed.

Lemma chat_command_ignores_padding_witness :
  handle_chat_command default_config Json.loads "u1"
    ((" " ++ nl) ++ "/chat" ++ "  " ++ "hi") (ok_response session_abc) None Eof initial_state
  = handle_chat_command default_config Json.loads "u1"
      ("/chat" ++ "hi") (ok_response session_abc) None Eof initial_state.
Proof.
  exact (chat_command_ignores_padding default_config Json.loads "u1" (" " ++ nl) "  " "hi"
           (ok_response session_abc) None Eof initial_state eq_refl eq_refl).
Defined.

Lemma lower_ascii_high a c :
  (128 <=? byte a)%N = true → a = lower_ascii c ↔ a = c.
Proof.
  intros Ha%N.leb_le. unfold lower_ascii.
  destruct ((65 <=? byte c) && (byte c <=? 90))%N eqn:Hc; [|tauto].
  apply andb_prop in Hc as [Hlo%N.leb_le Hhi%N.leb_le].
  split; intros ->; exfalso.
  - unfold byte in Ha at 1. rewrite N_ascii_embedding in Ha; unfold byte in *; lia.
  - lia.
Qed.

Lemma prefix_lower_high k s : high k = true → String.prefix k (lower s) = String.prefix k s.
Proof.
  revert s. induction k as [|a k IH]; intros s; [by destruct s|].
  cbn [high]. intros [Ha Hk]%andb_prop.
  destruct s as [|c s]; [reflexivity|]. cbn [lower String.prefix].
  destruct (ascii_dec a (lower_ascii c)) as [E|E], (ascii_dec a c) as [E'|E'];
    [by apply IH | | | reflexivity].
  - by apply (lower_ascii_high a c Ha) in E.
  - by apply (lower_ascii_high a c Ha) in E'.
Qed.

Lemma contains_lower_high k s : high k = true → contains k (lower s) = contains k s.
Proof.
  intros Hk. induction s as [|c s IH].
  - reflexivity.
  - change (contains k (lower (String c s)))
      with (String.prefix k (lower (String c s)) || contains k (lower s)).
    change (contains k (String c s)) with (String.prefix k (String c s) || contains k s).
    by rewrite IH, prefix_lower_high.
Qed.

(** X19.  The model keyword is matched without regard to the case of ASCII
    letters: two targets that differ only in case are switched alike. *)
Theorem switch_target_ignores_case u t1 t2 x_chat x_model0 x_model s :
  lower t1 = lower t2 →
  target_of t1 = target_of t2 ∧
  switch_model u t1 x_chat x_model0 x_model s = switch_model u t2 x_chat x_model0 x_model s.
Proof.
  intros Hlow.
  assert (Ht : target_of t1 = target_of t2).
  { unfold target_of.
    rewrite <- (contains_lower_high "橘猫" t1), <- (contains_lower_high "橘猫" t2),
      <- (contains_lower_high "黑猫" t1), <- (contains_lower_high "黑猫" t2), Hlow
      by reflexivity.
    reflexivity. }
  split; [exact Ht|]. unfold switch_model. by rewrite Ht.
Qed.

Lemma switch_target_ignores_case_witness :
  target_of "ORANGE cat" = target_of "Orange Cat" ∧
  switch_model "u1" "ORANGE cat" None None None initial_state
    = switch_model "u1" "Orange Cat" None None None initial_state.
Proof.
  exact (switch_target_ignores_case "u1" "ORANGE cat" "Orange Cat" None None None
           initial_state eq_refl).
Defined.

(** ** Request headers *)

Lemma header_lookup_set_eq k v h : header_lookup k (header_set k v h) = Some v.
Proof.
  induction h as [|[k' v'] h IH]; cbn.
  - by rewrite String.eqb_refl.
  - destruct (String.eqb k' k) eqn:E; cbn; rewrite E; [reflexivity | apply IH].
Qed.

Lemma header_lookup_set_ne k k0 v h :
  k0 ≠ k → header_lookup k (header_set k0 v h) = header_lookup k h.
Proof.
  intros Hne. induction h as [|[k' v'] h IH]; cbn.
  - destruct (String.eqb_spec k0 k); [contradiction | reflexivity].
  - destruct (String.eqb_spec k' k0) as [-> | Hk]; cbn.
    + by destruct (String.eqb_spec k0 k).
    + destruct (String.eqb k' k); [reflexivity | apply IH].
Qed.

Lemma cookie_added (h : list (string * string)) (cookie : option string) k :
  header_lookup k (match cookie with
                   | Some c => if is_empty c then h else header_set "Cookie" c h
                   | None => h
                   end)
  = if String.eqb "Cookie" k
    then match cookie ≫= (λ c, if is_empty c then None else Some c) with
         | Some c => Some c
         | None => header_lookup k h
         end
    else header_lookup k h.
Proof.
  destruct (String.eqb_spec "Cookie" k) as [<-|Hne];
    destruct cookie as [c|]; cbn [mbind option_bind]; try reflexivity;
    destruct (is_empty c); try reflexivity.
  - apply header_lookup_set_eq.
  - by apply header_lookup_set_ne.
Qed.

(** X20.  The token and the cookie of a request come from the environment: the
    token is [ANUNEKO_TOKEN] whenever that variable is set -- even to the
    empty string -- and the configured default otherwise; a [Cookie] header
    is sent exactly when [ANUNEKO_COOKIE] is set to a non-empty string.
    Every other header is the same whatever the configuration and the
    environment. *)
Theorem headers_follow_the_environment config environ :
  header_lookup "x-token" (_build_headers config environ)
    = Some (default (DEFAULT_TOKEN config) (environ !! "ANUNEKO_TOKEN")) ∧
  header_lookup "Cookie" (_build_headers config environ)
    = (c ← environ !! "ANUNEKO_COOKIE"; if is_empty c then None else Some c) ∧
  ∀ k, k ≠ "x-token" → k ≠ "Cookie" →
       header_lookup k (_build_headers config environ)
         = header_lookup k (_build_headers default_config ∅).
Proof.
  unfold _build_headers. cbn zeta. split; [|split].
  - rewrite cookie_added. reflexivity.
  - rewrite cookie_added.
    destruct (String.eqb_spec "Cookie" "Cookie") as [_|Hne]; [|done].
    by destruct (environ !! "ANUNEKO_COOKIE" ≫= _).
  - intros k Hk1 Hk2. rewrite !cookie_added.
    destruct (String.eqb_spec "Cookie" k) as [<-|_]; [done|].
    cbn [header_lookup].
    repeat (destruct (String.eqb _ k); [reflexivity|]).
    destruct (String.eqb_spec "x-token" k) as [<-|_]; [done | reflexivity].
Qed.

(** X21.  The stream request carries the same token and the same cookie as every
    other request, and none of the client identity headers. *)
Theorem stream_headers_agree config environ :
  header_lookup "x-token" (stream_headers config environ)
    = header_lookup "x-token" (_build_headers config environ) ∧
  header_lookup "Cookie" (stream_headers config environ)
    = header_lookup "Cookie" (_build_headers config environ) ∧
  ∀ k, k ≠ "x-token" → k ≠ "Cookie" → k ≠ "Content-Type" →
       header_lookup k (stream_headers config environ) = None.
Proof.
  unfold stream_headers, _build_headers. cbn zeta. split; [|split].
  - rewrite !cookie_added. reflexivity.
  - rewrite !cookie_added.
    destruct (String.eqb_spec "Cookie" "Cookie") as [_|Hne]; [|done].
    by destruct (environ !! "ANUNEKO_COOKIE" ≫= _).
  - intros k Hk1 Hk2 Hk3. rewrite cookie_added.
    destruct (String.eqb_spec "Cookie" k) as [<-|_]; [done|].
    cbn [header_lookup].
    destruct (String.eqb_spec "x-token" k) as [<-|_]; [done|].
    destruct (String.eqb_spec "Content-Type" k) as [<-|_]; [done | reflexivity].
Qed.

Lemma headers_follow_the_environment_witness :
  let environ : gmap string string :=
    <["ANUNEKO_TOKEN" := EmptyString]> (<["ANUNEKO_COOKIE" := "sid=1"]> ∅) in
  header_lookup "x-app_id" (_build_headers default_config environ)
    = Some "com.anuttacon.neko".
Proof.
  cbn zeta.
  rewrite (proj2 (proj2 (headers_follow_the_environment default_config
             (<["ANUNEKO_TOKEN" := EmptyString]> (<["ANUNEKO_COOKIE" := "sid=1"]> ∅))))
             "x-app_id") by discriminate.
  reflexivity.
Defined.

Lemma stream_headers_agree_witness :
  let environ : gmap string string := <["ANUNEKO_COOKIE" := "sid=1"]> ∅ in
  header_lookup "x-device_id" (stream_headers default_config environ) = None.
Proof.
  cbn zeta.
  apply (proj2 (proj2 (stream_headers_agree default_config
                         (<["ANUNEKO_COOKIE" := "sid=1"]> ∅)))); discriminate.
Defined.
